(** * the_last_application: a shallow embedding of the crawl pipeline and of
      the dashboard's database helpers

    Sources embedded here:
    - [src/src/utils.py]       [get_attributes], [make_linkedin_url]
    - [src/src/job_data.py]    [get_job_info], [validate_job_info]
    - [src/main.py]            the card loop of [main]
    - [src/tla_dashboard/utils/db_helper.py]
                               [get_dashboard_stats], [retry_failed_application],
                               [get_success_rate_by_company]

    Python dictionaries are finite maps ([gmap]) when only lookups matter and
    association lists when the insertion order is observable.  Python
    exceptions are the [Raise] branch of [result].  SQL tables are lists of
    rows, a nullable column is an [option]. *)

From Stdlib Require Import ZArith QArith Qround Lqa String Ascii List Floats.
From Stdlib Require Uint63.
From stdpp Require Import gmap strings list sorting.

Open Scope string_scope.

(** ** Python values and exceptions *)

Module Py.

(** The exceptions the embedded code can raise. *)
Inductive exn : Type :=
| AttributeError   (* attribute access on [None] *)
| IndexError       (* list index out of range *)
| ZeroDivisionError.

Inductive result (A : Type) : Type :=
| Ok (a : A)
| Raise (e : exn).
Arguments Ok {A} a.
Arguments Raise {A} e.

Definition bind {A B} (r : result A) (k : A -> result B) : result B :=
  match r with
  | Ok a => k a
  | Raise e => Raise e
  end.

(** The values stored in a candidate record: [None] or a [str]. *)
Inductive value : Type :=
| PyNone
| PyStr (s : string).

(** Python truthiness: [None] and the empty string are falsy. *)
Definition truthy (v : value) : bool :=
  match v with
  | PyNone => false
  | PyStr s => negb (String.eqb s "")
  end.

(** [l[i]], raising [IndexError] out of range (non-negative indices). *)
Definition index {A} (l : list A) (i : nat) : result A :=
  match l !! i with
  | Some x => Ok x
  | None => Raise IndexError
  end.

(** [range(0, stop, 2)]. *)
Definition range_step2 (stop : nat) : list nat :=
  (fun k => 2 * k) <$> seq 0 (Nat.div2 (S stop)).

(** [d.get(k, None)] on a dictionary of strings. *)
Definition get (d : gmap string string) (k : string) : value :=
  match d !! k with
  | Some s => PyStr s
  | None => PyNone
  end.

End Py.

Import Py.

Notation "'let*' x ':=' r 'in' k" := (Py.bind r (fun x => k))
  (at level 10, x name, r at level 100, k at level 200).

#[global] Instance exn_eq_dec : EqDecision Py.exn.
Proof. solve_decision. Defined.

#[global] Instance value_eq_dec : EqDecision Py.value.
Proof. solve_decision. Defined.

(** ** The browser collaborator

    An element handle exposes its flat attribute list
    [name1; value1; name2; value2; ...], its text and the two selector
    queries; a page (tab) exposes the two queries.  The queries are the
    collaborator's answers at the time of the call, so they are left
    arbitrary. *)

#[warnings="-register-all"]
Inductive Element : Type :=
  mkElement (attributes : list string)
            (text : string)
            (query_selector : string -> option Element)
            (query_selector_all : string -> list Element).

Definition attributes (e : Element) : list string :=
  match e with mkElement a _ _ _ => a end.
Definition text (e : Element) : string :=
  match e with mkElement _ t _ _ => t end.
Definition query_selector (e : Element) : string -> option Element :=
  match e with mkElement _ _ q _ => q end.
Definition query_selector_all (e : Element) : string -> list Element :=
  match e with mkElement _ _ _ q => q end.

Record Tab : Type := mkTab {
  tab_query_selector : string -> option Element;
  tab_query_selector_all : string -> list Element
}.

(** ** Python's [urllib.parse.urlencode]

    Strings are byte strings (the UTF-8 encoding of the Python [str]), which
    is what [urllib.parse.quote_plus] works on. *)

Module Url.

(** [urllib.parse._ALWAYS_SAFE]: ASCII letters, digits and [_.-~]. *)
Definition always_safe (c : ascii) : bool :=
  let n := N_of_ascii c in
  ((65 <=? n) && (n <=? 90) || (97 <=? n) && (n <=? 122) ||
   (48 <=? n) && (n <=? 57) ||
   (n =? 95) || (n =? 46) || (n =? 45) || (n =? 126))%N.

(** One upper-case hexadecimal digit, as ['%02X'] prints it. *)
Definition hex_digit (n : N) : ascii :=
  if (n <? 10)%N then ascii_of_N (48 + n) else ascii_of_N (55 + n).

(** [quote_plus] on one byte: kept when always safe, a space becomes [+],
    anything else is percent-encoded. *)
Definition quote_byte (c : ascii) : string :=
  if always_safe c then String c ""
  else if Ascii.eqb c " " then "+"
  else String "%" (String (hex_digit (N_of_ascii c / 16))
                  (String (hex_digit (N_of_ascii c mod 16)) "")).

(** [urllib.parse.quote_plus(s)] with the default [safe='']. *)
Fixpoint quote_plus (s : string) : string :=
  match s with
  | EmptyString => ""
  | String c r => quote_byte c +:+ quote_plus r
  end.

(** [str(v)] for the values a parameter can hold. *)
Definition py_str (v : Py.value) : string :=
  match v with
  | PyNone => "None"
  | PyStr s => s
  end.

(** [urllib.parse.urlencode(params)] for a dictionary in insertion order. *)
Definition urlencode (params : list (string * Py.value)) : string :=
  String.concat "&"
    ((fun kv => quote_plus (fst kv) +:+ "=" +:+ quote_plus (py_str (snd kv))) <$> params).

(** [d[k] = v] on an insertion-ordered dictionary: an existing key keeps its
    position, a new key goes last. *)
Fixpoint dict_set (d : list (string * Py.value)) (k : string) (v : Py.value)
  : list (string * Py.value) :=
  match d with
  | [] => [(k, v)]
  | (k', v') :: r =>
      if String.eqb k' k then (k', v) :: r else (k', v') :: dict_set r k v
  end.

End Url.

(** ** src/src/utils.py *)

Module Utils.

(** One iteration of the dictionary comprehension of [get_attributes]:
    the key [attributes[i]] is evaluated, then the value
    [attributes[i + 1]], then the pair is stored (a repeated key is
    overwritten). *)
Definition attr_step (attrs : list string)
    (acc : result (gmap string string)) (i : nat)
  : result (gmap string string) :=
  let* d := acc in
  let* k := Py.index attrs i in
  let* v := Py.index attrs (i + 1) in
  Ok (<[k := v]> d).

(** [{a[i]: a[i + 1] for i in range(0, len(a), 2)}] *)
Definition attrs_to_dict (attrs : list string) : result (gmap string string) :=
  foldl (attr_step attrs) (Ok ∅) (Py.range_step2 (length attrs)).

(** [get_attributes(elem)]; [elem] may be [None], in which case reading
    [elem.attributes] raises [AttributeError]. *)
Definition get_attributes (elem : option Element) : result (gmap string string) :=
  match elem with
  | None => Raise AttributeError
  | Some e => attrs_to_dict (attributes e)
  end.

(** The [params] dictionary of [make_linkedin_url]. *)
Definition linkedin_params (keyword : string) (geo_id : Py.value) (easy_apply : bool)
  : list (string * Py.value) :=
  let params := [("keywords", PyStr keyword)] in
  let params := if Py.truthy geo_id then Url.dict_set params "geoId" geo_id else params in
  let params := if easy_apply then Url.dict_set params "f_AL" (PyStr "true") else params in
  params.

(** [make_linkedin_url(base_url, keyword, geo_id=None, easy_apply=False)] *)
Definition make_linkedin_url (base_url keyword : string)
    (geo_id : Py.value) (easy_apply : bool) : string :=
  let query := Url.urlencode (linkedin_params keyword geo_id easy_apply) in
  base_url +:+ "?" +:+ query.

End Utils.

(** ** src/src/job_data.py *)

Module JobData.

(** The line feed of ["\n".join(...)]. *)
Definition newline : string := String "010" "".

(** [elem.query_selector(sel)] on a handle that may be [None]. *)
Definition query_selector_of (elem : option Element) (sel : string)
  : result (option Element) :=
  match elem with
  | None => Raise AttributeError
  | Some e => Ok (query_selector e sel)
  end.

(** [e.text if e else None] *)
Definition text_or_none (e : option Element) : Py.value :=
  match e with
  | Some e => PyStr (text e)
  | None => PyNone
  end.

(** [get_job_info(page, card)]: every [job_info[k] = v] is an insertion into
    the dictionary built so far. *)
Definition get_job_info (page : Tab) (card : Element) : result (gmap string Py.value) :=
  let card_element := query_selector card ".job-card-job-posting-card-wrapper" in
  let job_info : gmap string Py.value := ∅ in
  let* job_attributes := Utils.get_attributes card_element in
  let job_info := <["job_id" := Py.get job_attributes "data-job-id"]> job_info in
  let* job_link := query_selector_of card_element "a" in
  let* job_link_href :=
    match job_link with
    | Some _ => let* a := Utils.get_attributes job_link in Ok (Py.get a "href")
    | None => Ok PyNone
    end in
  let job_info := <["job_link" := job_link_href]> job_info in
  let* title_elem := query_selector_of card_element "strong" in
  let* company := query_selector_of card_element ".artdeco-entity-lockup__subtitle" in
  let* location := query_selector_of card_element ".artdeco-entity-lockup__caption" in
  let job_info := <["title" := text_or_none title_elem]> job_info in
  let job_info := <["company" := text_or_none company]> job_info in
  let job_info := <["location" := text_or_none location]> job_info in
  let hirer_information := tab_query_selector page ".hirer-card__hirer-information" in
  let* job_info :=
    match hirer_information with
    | Some h =>
        let hirer_profile_link := query_selector h "a" in
        let job_info := <["hirer_name" := text_or_none hirer_information]> job_info in
        let* a := Utils.get_attributes hirer_profile_link in
        Ok (<["hirer_profile_link" := Py.get a "href"]> job_info)
    | None =>
        let job_info := <["hirer_name" := PyNone]> job_info in
        Ok (<["hirer_profile_link" := PyNone]> job_info)
    end in
  let job_details := tab_query_selector_all page ".jobs-description__container p" in
  let job_description :=
    match job_details with
    | [] => PyNone
    | _ :: _ => PyStr (String.concat newline (text <$> job_details))
    end in
  let job_info := <["description" := job_description]> job_info in
  Ok job_info.

Definition required_fields : list string :=
  ["job_id"; "title"; "company"; "location"; "job_link"].

(** The loop of [validate_job_info]: the first field that is missing or
    falsy returns [False]. *)
Fixpoint validate_fields (fields : list string) (job_info : gmap string Py.value) : bool :=
  match fields with
  | [] => true
  | field :: rest =>
      match job_info !! field with
      | None => false
      | Some v => if negb (Py.truthy v) then false else validate_fields rest job_info
      end
  end.

Definition validate_job_info (job_info : gmap string Py.value) : bool :=
  validate_fields required_fields job_info.

End JobData.

(** ** src/main.py: the card loop *)

Section Crawl.

(** The store behind [db.insert_job] is not part of the sources; the loop
    is embedded over an arbitrary store and insertion function. *)
Variable Store : Type.
Variable insert_job : Store -> gmap string Py.value -> Store.

(** [for job in job_cards: ...], each card paired with the page as the
    browser shows it once that card has been clicked.  An exception of the
    extractor ends the loop and leaves the store as it was. *)
Fixpoint crawl_cards (job_cards : list (Element * Tab)) (db : Store) : result unit * Store :=
  match job_cards with
  | [] => (Ok tt, db)
  | (job, page) :: rest =>
      match JobData.get_job_info page job with
      | Raise e => (Raise e, db)
      | Ok job_info =>
          if JobData.validate_job_info job_info
          then crawl_cards rest (insert_job db job_info)
          else crawl_cards rest db
      end
  end.

End Crawl.

(** ** src/tla_dashboard/utils/db_helper.py

    The tables are lists of rows.  Only the columns the embedded queries
    read or write are kept; the other columns are carried unchanged by every
    statement below.  Timestamps are day numbers, which is what [DATE(...)]
    and the comparisons with [CURRENT_DATE] observe.

    Counts are integers and are exact.  The two rates the helpers compute
    ([success_rate] of [get_dashboard_stats], the rates of the rollups) are
    binary64 numbers in Python and in the database; in the functions below
    they are carried as the rational number that the expression denotes,
    which is what their bounds and their order are proved from.  The
    binary64 value of the expression itself is [percent_binary64]: it can
    differ from the rational one in the last place, so the statements about
    the value of a rate are stated with a tolerance, or at inputs where the
    two agree. *)

Module Db.

Record job_row : Type := mkJob {
  job_id : string;                 (* primary key *)
  company : option string;
  is_applied : option bool;
  scraped_at : option Z
}.

Record application_row : Type := mkApplication {
  application_id : Z;              (* primary key *)
  app_job_id : option string;      (* foreign key into jobs *)
  status : string;
  applied_date : option Z;
  notes : option string
}.

Record database : Type := mkDatabase {
  jobs : list job_row;
  applications : list application_row
}.

(** [SELECT COUNT( * ) FROM t WHERE p] *)
Definition count {A} (p : A -> bool) (t : list A) : Z :=
  Z.of_nat (length (List.filter p t)).

(** [SELECT MAX(c) FROM t], [NULL] when no row has a value. *)
Definition sql_max (vs : list (option Z)) : option Z :=
  foldr (fun v acc =>
           match v, acc with
           | Some x, Some y => Some (Z.max x y)
           | Some x, None => Some x
           | None, _ => acc
           end) None vs.

(** [a || b]: [NULL] when either side is. *)
Definition sql_concat (a b : option string) : option string :=
  match a, b with
  | Some x, Some y => Some (x +:+ y)
  | _, _ => None
  end.

(** [COALESCE(a, b)] *)
Definition coalesce (a : option string) (b : string) : option string :=
  match a with
  | Some x => Some x
  | None => Some b
  end.

(** [ROUND(x, 2)] of the rational [x]: to the nearest hundredth, ties away
    from zero. *)
Definition sql_round2 (x : Q) : Q :=
  (if Qle_bool 0 x
   then inject_Z (Qfloor (x * 100 + (1 # 2))) / 100
   else - (inject_Z (Qfloor (- x * 100 + (1 # 2))) / 100))%Q.

(** Python's [a / b] on integers: it raises on a zero divisor, and is the
    quotient otherwise. *)
Definition truediv (a b : Z) : result Q :=
  if (b =? 0)%Z then Raise ZeroDivisionError else Ok (inject_Z a / inject_Z b)%Q.

(** A count as a binary64 number (exact below [2^53]). *)
Definition float_of_Z (z : Z) : float := PrimFloat.of_uint63 (Uint63.of_Z z).

(** [a / b * 100] as it is evaluated on two counts, in binary64: the
    quotient is rounded, and so is the product. *)
Definition percent_binary64 (a b : Z) : float :=
  (float_of_Z a / float_of_Z b * float_of_Z 100)%float.

(** *** [get_dashboard_stats] *)

Record dashboard_stats : Type := mkStats {
  total_jobs : Z;
  total_applications : Z;
  apps_submitted : Z;
  apps_failed : Z;
  apps_pending : Z;
  success_rate : Q;
  jobs_not_applied : Z;
  today_apps : Z;
  week_apps : Z;
  avg_time : Q;
  last_updated : option Z
}.

Definition has_status (s : string) (a : application_row) : bool :=
  String.eqb (status a) s.

Definition get_dashboard_stats (current_date : Z) (db : database) : result dashboard_stats :=
  let total_jobs := count (fun _ => true) (jobs db) in
  let total_apps := count (fun _ => true) (applications db) in
  let apps_submitted := count (has_status "submitted") (applications db) in
  let apps_failed := count (has_status "failed") (applications db) in
  let apps_pending := count (has_status "pending") (applications db) in
  let* success_rate :=
    if (total_apps >? 0)%Z
    then let* r := truediv apps_submitted total_apps in Ok (r * 100)%Q
    else Ok 0%Q in
  let jobs_not_applied :=
    count (fun j => bool_decide (is_applied j = Some false)) (jobs db) in
  let today_apps :=
    count (fun a => match applied_date a with
                    | Some d => (d =? current_date)%Z
                    | None => false
                    end) (applications db) in
  let week_apps :=
    count (fun a => match applied_date a with
                    | Some d => (current_date - 7 <=? d)%Z
                    | None => false
                    end) (applications db) in
  let avg_time := (7 # 2)%Q in
  let last_updated := sql_max (scraped_at <$> jobs db) in
  Ok {| total_jobs := total_jobs;
        total_applications := total_apps;
        apps_submitted := apps_submitted;
        apps_failed := apps_failed;
        apps_pending := apps_pending;
        success_rate := success_rate;
        jobs_not_applied := jobs_not_applied;
        today_apps := today_apps;
        week_apps := week_apps;
        avg_time := avg_time;
        last_updated := last_updated |}.


(** *** [retry_failed_application]

    [UPDATE applications SET status = 'pending',
       notes = COALESCE(notes || ' | Retry requested', 'Retry requested')
     WHERE application_id = ?]
    (the cache reset that follows does not touch the database). *)

Definition retry_row (a : application_row) : application_row :=
  {| application_id := application_id a;
     app_job_id := app_job_id a;
     status := "pending";
     applied_date := applied_date a;
     notes := coalesce (sql_concat (notes a) (Some " | Retry requested"))
                       "Retry requested" |}.

Definition retry_failed_application (id : Z) (db : database) : database :=
  {| jobs := jobs db;
     applications :=
       (fun a => if (application_id a =? id)%Z then retry_row a else a)
         <$> applications db |}.


(** *** [get_success_rate_by_company] *)

(** [applications a LEFT JOIN jobs j ON a.job_id = j.job_id]: one row per
    matching job, one row with a [NULL] job when there is none. *)
Definition left_join (db : database) : list (application_row * option job_row) :=
  a ← applications db;
  match filter (fun j => app_job_id a = Some (job_id j)) (jobs db) with
  | [] => [(a, None)]
  | js => (fun j => (a, Some j)) <$> js
  end.

(** [WHERE j.company IS NOT NULL] *)
Definition with_company (rows : list (application_row * option job_row))
  : list (application_row * string) :=
  omap (fun r => match snd r with
                 | Some j => match company j with
                             | Some c => Some (fst r, c)
                             | None => None
                             end
                 | None => None
                 end) rows.

Record company_rate : Type := mkRate {
  rate_company : string;
  rate_total_applications : Z;
  rate_successful : Z;
  rate_success_rate : Q
}.

(** The aggregates of one group of [GROUP BY j.company]. *)
Definition aggregate (rows : list (application_row * string)) (c : string) : company_rate :=
  let group := filter (fun r => snd r = c) rows in
  let total := count (fun _ => true) group in
  let successful := count (fun r => has_status "submitted" (fst r)) group in
  {| rate_company := c;
     rate_total_applications := total;
     rate_successful := successful;
     rate_success_rate := sql_round2 (inject_Z successful / inject_Z total * 100)%Q |}.

(** [ORDER BY success_rate DESC] *)
Definition by_rate_desc (x y : company_rate) : Prop :=
  (rate_success_rate y <= rate_success_rate x)%Q.

#[global] Instance by_rate_desc_dec (x y : company_rate) : Decision (by_rate_desc x y).
Proof. unfold by_rate_desc, Qle. apply _. Defined.

Definition get_success_rate_by_company (db : database) : list company_rate :=
  let rows := with_company (left_join db) in
  let groups := aggregate rows <$> remove_dups (snd <$> rows) in
  let having := filter (fun g => (3 <= rate_total_applications g)%Z) groups in
  let ordered := merge_sort by_rate_desc having in
  take 20 ordered.

(** The "Retry All Failed Applications" button of [pages/Error_Logs.py]:
    [for _, row in errors_df.iterrows(): retry_failed_application(row['app_id'])],
    over the ids of the listed rows. *)
Fixpoint retry_all (app_ids : list Z) (db : database) : database :=
  match app_ids with
  | [] => db
  | id :: rest => retry_all rest (retry_failed_application id db)
  end.

(** *** [get_application_status_distribution]

    [SELECT status, COUNT( * ) FROM applications GROUP BY status]; the
    groups are listed in order of first appearance (SQL leaves the order
    open). *)
Definition get_application_status_distribution (db : database) : list (string * Z) :=
  (fun s => (s, count (has_status s) (applications db)))
    <$> remove_dups (status <$> applications db).

(** *** [get_top_companies] *)

Record company_jobs : Type := mkCompanyJobs {
  top_company : string;
  top_job_count : Z;
  top_applied_count : Z;
  top_application_rate : Q
}.




(** [ORDER BY job_count DESC] *)
Definition by_job_count_desc (x y : company_jobs) : Prop :=
  (top_job_count y <= top_job_count x)%Z.

#[global] Instance by_job_count_desc_dec (x y : company_jobs) :
  Decision (by_job_count_desc x y).
Proof. unfold by_job_count_desc. apply _. Defined.


(** *** [get_unique_companies]

    [SELECT DISTINCT company FROM jobs WHERE company IS NOT NULL
     ORDER BY company], strings ordered byte-wise. *)
Definition string_le (a b : string) : Prop := String.leb a b = true.

#[global] Instance string_le_dec (a b : string) : Decision (string_le a b).
Proof. unfold string_le. apply _. Defined.

Definition get_unique_companies (db : database) : list string :=
  merge_sort string_le (remove_dups (omap company (jobs db))).

(** *** [get_applications_over_time] *)

Record day_count : Type := mkDayCount {
  day_date : Z;
  day_count_all : Z;
  day_submitted : Z;
  day_failed : Z
}.

(** [WHERE applied_date >= CURRENT_DATE - INTERVAL 'days days']; a row
    without a date does not pass the comparison. *)
Definition in_window (current_date days : Z) (a : application_row) : bool :=
  match applied_date a with
  | Some d => (current_date - days <=? d)%Z
  | None => false
  end.

Definition on_day (d : Z) (a : application_row) : bool :=
  bool_decide (applied_date a = Some d).

Definition aggregate_day (rows : list application_row) (d : Z) : day_count :=
  let group := List.filter (on_day d) rows in
  {| day_date := d;
     day_count_all := count (fun _ => true) group;
     day_submitted := count (has_status "submitted") group;
     day_failed := count (has_status "failed") group |}.

(** [ORDER BY date] *)
Definition by_date (x y : day_count) : Prop := (day_date x <= day_date y)%Z.

#[global] Instance by_date_dec (x y : day_count) : Decision (by_date x y).
Proof. unfold by_date. apply _. Defined.

Definition get_applications_over_time (current_date days : Z) (db : database)
  : list day_count :=
  let rows := List.filter (in_window current_date days) (applications db) in
  let dates := remove_dups (omap applied_date rows) in
  merge_sort by_date (aggregate_day rows <$> dates).

(** *** [get_all_applications]: the query text and its parameters

    The function builds a parameterised query and hands it to the
    database with the list of parameters; this is the building part. *)

Inductive sql_param : Type :=
| PStr (s : string)
| PInt (n : Z)
| PDate (d : Z).

Definition newline : string := String "010" "".

(** The text between the triple quotes, line by line. *)
Definition select_applications : string :=
  String.concat newline
    [ "";
      "        SELECT ";
      "            a.application_id,";
      "            a.job_id,";
      "            j.title,";
      "            j.company,";
      "            j.location,";
      "            a.status,";
      "            a.applied_date,";
      "            a.application_method,";
      "            a.confirmation_number,";
      "            j.job_link,";
      "            j.hirer_name";
      "        FROM applications a";
      "        LEFT JOIN jobs j ON a.job_id = j.job_id";
      "        WHERE 1=1";
      "    " ].

(** [','.join(['?' for _ in xs])] *)
Definition placeholders {A} (xs : list A) : string :=
  String.concat "," ((fun _ => "?") <$> xs).

(** The elements of an optional list or tuple argument; the argument is
    truthy exactly when it has one. *)
Definition list_arg {A} (o : option (list A)) : list A :=
  match o with
  | Some xs => xs
  | None => []
  end.

Definition build_applications_query
    (status_filter company_filter : option (list string))
    (date_range : option (list sql_param))
    (search_term : option string)
    (limit offset : Z) : string * list sql_param :=
  let query := select_applications in
  let params : list sql_param := [] in
  let '(query, params) :=
    match list_arg status_filter with
    | [] => (query, params)
    | _ :: _ =>
        (query +:+ " AND a.status IN ("
               +:+ placeholders (list_arg status_filter) +:+ ")",
         (params ++ (PStr <$> list_arg status_filter))%list)
    end in
  let '(query, params) :=
    match list_arg company_filter with
    | [] => (query, params)
    | _ :: _ =>
        (query +:+ " AND j.company IN ("
               +:+ placeholders (list_arg company_filter) +:+ ")",
         (params ++ (PStr <$> list_arg company_filter))%list)
    end in
  let '(query, params) :=
    match list_arg date_range with
    | [] => (query, params)
    | _ :: _ =>
        (query +:+ " AND a.applied_date BETWEEN ? AND ?",
         (params ++ list_arg date_range)%list)
    end in
  let '(query, params) :=
    match search_term with
    | Some (String c r) =>
        let search_pattern := PStr ("%" +:+ String c r +:+ "%") in
        (query +:+ " AND (j.title ILIKE ? OR j.company ILIKE ? OR j.location ILIKE ?)",
         (params ++ [search_pattern; search_pattern; search_pattern])%list)
    | _ => (query, params)
    end in
  (query +:+ " ORDER BY a.applied_date DESC LIMIT ? OFFSET ?",
   (params ++ [PInt limit; PInt offset])%list).

End Db.

(** * Properties *)

(** ** [get_attributes] *)

Section GetAttributes.

Variable attrs : list string.

(** The dictionary built from the first [m] pairs: [k] is bound to the
    value of the last pair, among the first [m], whose name is [k]. *)
Definition binds_last (m : nat) (d : gmap string string) : Prop :=
  forall k v,
    d !! k = Some v <->
    exists i, i < m /\ attrs !! (2 * i) = Some k /\ attrs !! (2 * i + 1) = Some v /\
              forall j, i < j < m -> attrs !! (2 * j) <> Some k.

Lemma binds_last_empty : binds_last 0 ∅.
Proof.
  intros k v. rewrite lookup_empty. split; [discriminate|].
  intros (i & Hi & _). lia.
Qed.

Lemma binds_last_insert m d k v :
  binds_last m d ->
  attrs !! (2 * m) = Some k ->
  attrs !! (2 * m + 1) = Some v ->
  binds_last (S m) (<[k := v]> d).
Proof.
  intros Hd Hk Hv k' v'. destruct (decide (k = k')) as [<-|Hne].
  - rewrite lookup_insert_eq. split.
    + intros [= <-]. exists m. repeat split; auto; intros j Hj; lia.
    + intros (i & Hi & Hik & Hiv & Hlast).
      destruct (decide (i = m)) as [->|Him]; [congruence|].
      exfalso. apply (Hlast m); [lia | assumption].
  - rewrite lookup_insert_ne by assumption. rewrite (Hd k' v'). split.
    + intros (i & Hi & Hik & Hiv & Hlast). exists i. repeat split; auto.
      intros j Hj. destruct (decide (j = m)) as [->|Hjm]; [congruence|].
      apply Hlast; lia.
    + intros (i & Hi & Hik & Hiv & Hlast).
      destruct (decide (i = m)) as [->|Him]; [congruence|].
      exists i. repeat split; auto; [lia|]. intros j Hj. apply Hlast; lia.
Qed.

(** The first [m] iterations succeed when the list holds [m] full pairs. *)
Lemma attr_fold_prefix m :
  2 * m <= length attrs ->
  exists d, foldl (Utils.attr_step attrs) (Ok ∅) ((fun k => 2 * k) <$> seq 0 m) = Ok d
            /\ binds_last m d.
Proof.
  induction m as [|m IH]; intros Hlen.
  - exists ∅. split; [reflexivity | apply binds_last_empty].
  - destruct IH as (d & Hfold & Hd); [lia|].
    destruct (lookup_lt_is_Some_2 attrs (2 * m)) as [k Hk]; [lia|].
    destruct (lookup_lt_is_Some_2 attrs (2 * m + 1)) as [v Hv]; [lia|].
    exists (<[k := v]> d). split.
    + rewrite seq_S, fmap_app, foldl_app, Hfold. simpl.
      unfold Utils.attr_step, Py.index. simpl.
      replace (m + (m + 0)) with (2 * m) by lia.
      rewrite Hk, Hv. reflexivity.
    + apply binds_last_insert; assumption.
Qed.

Lemma div2_even n : Nat.div2 (S (2 * n)) = n.
Proof. apply Nat.div2_succ_double. Qed.

Lemma div2_odd n : Nat.div2 (S (2 * n + 1)) = S n.
Proof.
  replace (S (2 * n + 1)) with (2 * S n) by lia. apply Nat.div2_double.
Qed.

End GetAttributes.

(** C10. For a flat attribute list of even length [2 * n], [get_attributes]
    returns the dictionary sending [attributes[2 * i]] to
    [attributes[2 * i + 1]] for each [i < n], the last pair winning when a
    name repeats; for a list of odd length it raises [IndexError]. *)
Theorem get_attributes_pairs_or_IndexError (e : Element) (n : nat) :
  (length (attributes e) = 2 * n ->
   exists d, Utils.get_attributes (Some e) = Ok d /\ binds_last (attributes e) n d)
  /\
  (length (attributes e) = 2 * n + 1 ->
   Utils.get_attributes (Some e) = Raise IndexError).
Proof.
  split; intros Hlen; simpl; unfold Utils.attrs_to_dict, Py.range_step2; rewrite Hlen.
  - rewrite div2_even. apply attr_fold_prefix. lia.
  - rewrite div2_odd, seq_S, fmap_app, foldl_app.
    destruct (attr_fold_prefix (attributes e) n) as (d & -> & _); [lia|].
    simpl. unfold Utils.attr_step, Py.index. simpl.
    replace (n + (n + 0)) with (2 * n) by lia.
    destruct (lookup_lt_is_Some_2 (attributes e) (2 * n)) as [k ->]; [lia|].
    unfold Py.bind at 1.
    rewrite (lookup_ge_None_2 (attributes e) (2 * n + 1)) by lia.
    reflexivity.
Qed.

(** ** [make_linkedin_url]: reading a query string back

    [query_pairs] splits a query string at every [&] and each piece at its
    first [=]; it is the yardstick for "each parameter appears exactly
    once". *)

Fixpoint split_on (sep : ascii) (s : string) : list string :=
  match s with
  | EmptyString => [""]
  | String c r =>
      if Ascii.eqb c sep then "" :: split_on sep r
      else match split_on sep r with
           | h :: t => String c h :: t
           | [] => [String c ""]
           end
  end.

Fixpoint partition_at (sep : ascii) (s : string) : string * string :=
  match s with
  | EmptyString => ("", "")
  | String c r =>
      if Ascii.eqb c sep then ("", r)
      else let '(a, b) := partition_at sep r in (String c a, b)
  end.

Definition query_pairs (q : string) : list (string * string) :=
  partition_at "=" <$> split_on "&" q.

Fixpoint all_chars (p : ascii -> bool) (s : string) : bool :=
  match s with
  | EmptyString => true
  | String c r => p c && all_chars p r
  end.

Definition not_sep (c : ascii) : bool :=
  negb (Ascii.eqb c "&") && negb (Ascii.eqb c "=").

Lemma all_chars_app p a b :
  all_chars p (a +:+ b) = all_chars p a && all_chars p b.
Proof.
  induction a as [|c a IH]; simpl; [reflexivity|].
  rewrite IH. apply andb_assoc.
Qed.

Lemma quote_byte_not_sep c : all_chars not_sep (Url.quote_byte c) = true.
Proof.
  destruct c as [[] [] [] [] [] [] [] []]; vm_compute; reflexivity.
Qed.

Lemma quote_plus_not_sep s : all_chars not_sep (Url.quote_plus s) = true.
Proof.
  induction s as [|c s IH]; simpl; [reflexivity|].
  rewrite all_chars_app, quote_byte_not_sep, IH. reflexivity.
Qed.

Lemma split_on_none sep s :
  all_chars (fun c => negb (Ascii.eqb c sep)) s = true -> split_on sep s = [s].
Proof.
  induction s as [|c s IH]; simpl; [reflexivity|].
  intros [Hc Hs]%andb_prop. apply negb_true_iff in Hc. rewrite Hc, (IH Hs).
  reflexivity.
Qed.

Lemma split_on_cons sep a b :
  all_chars (fun c => negb (Ascii.eqb c sep)) a = true ->
  split_on sep (a +:+ String sep b) = a :: split_on sep b.
Proof.
  induction a as [|c a IH]; simpl.
  - intros _. rewrite Ascii.eqb_refl. reflexivity.
  - intros [Hc Ha]%andb_prop. apply negb_true_iff in Hc. rewrite Hc, (IH Ha).
    reflexivity.
Qed.

Lemma partition_at_first sep a b :
  all_chars (fun c => negb (Ascii.eqb c sep)) a = true ->
  partition_at sep (a +:+ String sep b) = (a, b).
Proof.
  induction a as [|c a IH]; simpl.
  - intros _. rewrite Ascii.eqb_refl. reflexivity.
  - intros [Hc Ha]%andb_prop. apply negb_true_iff in Hc. rewrite Hc, (IH Ha).
    reflexivity.
Qed.

Lemma not_sep_amp s :
  all_chars not_sep s = true ->
  all_chars (fun c => negb (Ascii.eqb c "&")) s = true.
Proof.
  induction s as [|c s IH]; simpl; [reflexivity|].
  intros [[Hc _]%andb_prop Hs]%andb_prop. rewrite Hc, (IH Hs). reflexivity.
Qed.

Lemma not_sep_eq s :
  all_chars not_sep s = true ->
  all_chars (fun c => negb (Ascii.eqb c "=")) s = true.
Proof.
  induction s as [|c s IH]; simpl; [reflexivity|].
  intros [[_ Hc]%andb_prop Hs]%andb_prop. rewrite Hc, (IH Hs). reflexivity.
Qed.

Lemma item_no_amp k v :
  all_chars (fun c => negb (Ascii.eqb c "&"))
    (Url.quote_plus k +:+ "=" +:+ Url.quote_plus v) = true.
Proof.
  rewrite !all_chars_app, !(not_sep_amp _ (quote_plus_not_sep _)). reflexivity.
Qed.

(** Every parameter of a non-empty dictionary is read back once, in order,
    with its name and value percent-encoded. *)
Lemma query_pairs_urlencode (kv : string * Py.value) (params : list (string * Py.value)) :
  query_pairs (Url.urlencode (kv :: params)) =
  (fun kv => (Url.quote_plus (fst kv), Url.quote_plus (Url.py_str (snd kv))))
    <$> (kv :: params).
Proof.
  unfold query_pairs, Url.urlencode. revert kv.
  induction params as [|kv' params IH]; intros kv.
  - simpl. rewrite split_on_none by apply item_no_amp.
    simpl. f_equal. apply partition_at_first, not_sep_eq, quote_plus_not_sep.
  - rewrite !fmap_cons. change (String.concat "&" (?x :: ?y :: ?l))
      with (x +:+ String "&" (String.concat "&" (y :: l))).
    rewrite split_on_cons by apply item_no_amp.
    rewrite fmap_cons. f_equal.
    + apply partition_at_first, not_sep_eq, quote_plus_not_sep.
    + specialize (IH kv'). rewrite !fmap_cons in IH. exact IH.
Qed.

(** The [href] attribute listed twice: the second value wins. *)
Lemma get_attributes_repeated_name :
  exists d, Utils.get_attributes
              (Some (mkElement ["href"; "/a"; "class"; "x"; "href"; "/b"] ""
                               (fun _ => None) (fun _ => []))) = Ok d
            /\ d !! "href" = Some "/b" /\ d !! "class" = Some "x".
Proof.
  destruct (get_attributes_pairs_or_IndexError
              (mkElement ["href"; "/a"; "class"; "x"; "href"; "/b"] ""
                         (fun _ => None) (fun _ => [])) 3) as [Heven _].
  destruct (Heven eq_refl) as (d & Hd & Hlast).
  exists d. split; [exact Hd|]. split; apply Hlast.
  - exists 2. repeat split; [lia | intros j Hj; lia].
  - exists 1. repeat split; [lia | intros j Hj].
    assert (j = 2) as -> by lia. discriminate.
Defined.

(** C4 (as stated, refuted). An empty [geo_id] passed to [make_linkedin_url]
    is dropped by the guard [if geo_id:], so a provided [geo_id] does not
    always put a [geoId] parameter in the query string. *)
Lemma make_linkedin_url_empty_geo_id_dropped :
  Utils.make_linkedin_url "https://x.test/search" "engineer" (PyStr "") false
    = "https://x.test/search?keywords=engineer"
  /\ String.index 0 "geoId="
       (Utils.make_linkedin_url "https://x.test/search" "engineer" (PyStr "") false)
     = None.
Proof. split; vm_compute; reflexivity. Qed.

(** C4 (amended). [make_linkedin_url] is a function of its four arguments.
    With only [base_url] and [keyword] it returns
    [base_url + "?keywords=" + quote_plus(keyword)], so
    [make_linkedin_url("https://x.test/search", "engineer")] is
    ["https://x.test/search?keywords=engineer"].  In general the result is
    [base_url + "?" + q] where the parameters of [q] are, in this order and
    each exactly once: [keywords]; [geoId] with the percent-encoded [geo_id],
    present exactly when [geo_id] is truthy (neither [None] nor empty);
    [f_AL=true], present exactly when [easy_apply] is true. *)
Theorem make_linkedin_url_query (base_url keyword : string)
    (geo_id : Py.value) (easy_apply : bool) :
  Utils.make_linkedin_url base_url keyword PyNone false
    = base_url +:+ "?keywords=" +:+ Url.quote_plus keyword
  /\ Utils.make_linkedin_url "https://x.test/search" "engineer" PyNone false
     = "https://x.test/search?keywords=engineer"
  /\ exists q,
       Utils.make_linkedin_url base_url keyword geo_id easy_apply
         = base_url +:+ "?" +:+ q
       /\ query_pairs q =
            ([("keywords", Url.quote_plus keyword)]
             ++ (if Py.truthy geo_id
                 then [("geoId", Url.quote_plus (Url.py_str geo_id))] else [])
             ++ (if easy_apply then [("f_AL", "true")] else []))%list.
Proof.
  split; [reflexivity|]. split; [vm_compute; reflexivity|].
  exists (Url.urlencode (Utils.linkedin_params keyword geo_id easy_apply)).
  split; [reflexivity|].
  unfold Utils.linkedin_params.
  destruct (Py.truthy geo_id), easy_apply; simpl Url.dict_set;
    rewrite query_pairs_urlencode; reflexivity.
Qed.

(** ** [validate_job_info] *)

(** A field that is present and holds a non-empty string. *)
Definition present_nonempty (job_info : gmap string Py.value) (field : string) : Prop :=
  exists s, job_info !! field = Some (PyStr s) /\ s <> "".

Lemma truthy_nonempty v : Py.truthy v = true <-> exists s, v = PyStr s /\ s <> "".
Proof.
  destruct v as [|s]; simpl.
  - split; [discriminate | intros (s & [=] & _)].
  - rewrite negb_true_iff. split.
    + intros H. exists s. split; [reflexivity|]. intros ->. discriminate.
    + intros (s' & [= <-] & Hne). now apply String.eqb_neq.
Qed.

Lemma validate_fields_Forall fields job_info :
  JobData.validate_fields fields job_info = true <->
  Forall (present_nonempty job_info) fields.
Proof.
  induction fields as [|f fields IH]; simpl.
  - split; [constructor | reflexivity].
  - rewrite Forall_cons, <- IH. unfold present_nonempty.
    destruct (job_info !! f) as [v|] eqn:Hf.
    + destruct (Py.truthy v) eqn:Hv; simpl.
      * apply truthy_nonempty in Hv as (s & -> & Hs). split; [|tauto].
        intros H. split; [exists s; auto | exact H].
      * split; [discriminate|]. intros [(s & [= ->] & Hs) _].
        assert (Py.truthy (PyStr s) = true) by (apply truthy_nonempty; eauto).
        congruence.
    + split; [discriminate | intros [(s & [=] & _) _]].
Qed.

Lemma validate_fields_agree fields (j j' : gmap string Py.value) :
  (forall f, f ∈ fields -> j !! f = j' !! f) ->
  JobData.validate_fields fields j = JobData.validate_fields fields j'.
Proof.
  induction fields as [|f fields IH]; intros Hagree; simpl; [reflexivity|].
  rewrite <- (Hagree f) by constructor.
  rewrite IH; [reflexivity|]. intros g Hg. apply Hagree. now constructor.
Qed.

(** C3. [validate_job_info] returns [True] exactly when each of [job_id],
    [title], [company], [location], [job_link] is present and non-empty; it
    returns [False] as soon as one of them is missing, [None] or empty; and
    two records that agree on these five fields get the same answer,
    whatever their other fields hold. *)
Theorem validate_job_info_required_fields (job_info : gmap string Py.value) :
  (JobData.validate_job_info job_info = true <->
   Forall (present_nonempty job_info)
          ["job_id"; "title"; "company"; "location"; "job_link"])
  /\
  (forall field,
     field ∈ ["job_id"; "title"; "company"; "location"; "job_link"] ->
     job_info !! field = None \/ job_info !! field = Some PyNone
       \/ job_info !! field = Some (PyStr "") ->
     JobData.validate_job_info job_info = false)
  /\
  (forall job_info' : gmap string Py.value,
     (forall field,
        field ∈ ["job_id"; "title"; "company"; "location"; "job_link"] ->
        job_info !! field = job_info' !! field) ->
     JobData.validate_job_info job_info = JobData.validate_job_info job_info').
Proof.
  split; [apply validate_fields_Forall|]. split.
  - intros field Hin Hbad.
    apply not_true_is_false. intros Hok.
    apply validate_fields_Forall in Hok.
    rewrite Forall_forall in Hok. destruct (Hok field Hin) as (s & Hs & Hne).
    destruct Hbad as [Hb|[Hb|Hb]]; congruence.
  - intros job_info' Hagree. now apply validate_fields_agree.
Qed.

(** A record with the five required fields and no optional one, and the
    same record with the three optional fields filled in. *)
Lemma validate_job_info_ignores_optional_fields :
  let required : gmap string Py.value :=
    <["job_id" := PyStr "42"]> (<["title" := PyStr "Engineer"]>
      (<["company" := PyStr "Acme"]> (<["location" := PyStr "Berlin"]>
        (<["job_link" := PyStr "/jobs/42"]> ∅)))) in
  JobData.validate_job_info required = true /\
  JobData.validate_job_info
    (<["hirer_name" := PyNone]> (<["hirer_profile_link" := PyStr "/in/jane"]>
      (<["description" := PyStr ""]> required))) = true.
Proof.
  intros required.
  assert (Hreq : JobData.validate_job_info required = true) by reflexivity.
  split; [exact Hreq|]. rewrite <- Hreq. symmetry.
  apply (proj2 (proj2 (validate_job_info_required_fields required))).
  intros field Hin.
  rewrite !lookup_insert_ne; [reflexivity|..];
    intros <-; vm_compute in Hin; repeat (apply elem_of_cons in Hin as [Hin|Hin]; [discriminate|]);
    inversion Hin.
Defined.

(** ** [get_job_info] *)

(** Concrete handles: a leaf element, a fully rendered card, a card without
    its content wrapper, a page with a description, and a page whose hirer
    panel has no profile link. *)
Definition leaf (attrs : list string) (txt : string) : Element :=
  mkElement attrs txt (fun _ => None) (fun _ => []).

Definition rendered_wrapper (id title : string) : Element :=
  mkElement ["data-job-id"; id] ""
    (fun sel =>
       if String.eqb sel "a" then Some (leaf ["href"; "/jobs/" +:+ id] "")
       else if String.eqb sel "strong" then Some (leaf [] title)
       else if String.eqb sel ".artdeco-entity-lockup__subtitle" then Some (leaf [] "Acme")
       else if String.eqb sel ".artdeco-entity-lockup__caption" then Some (leaf [] "Berlin")
       else None)
    (fun _ => []).

Definition rendered_card (id title : string) : Element :=
  mkElement [] ""
    (fun sel => if String.eqb sel ".job-card-job-posting-card-wrapper"
                then Some (rendered_wrapper id title) else None)
    (fun _ => []).

Definition card_without_wrapper : Element := leaf [] "".

Definition page_with_description : Tab :=
  mkTab (fun _ => None)
        (fun sel => if String.eqb sel ".jobs-description__container p"
                    then [leaf [] "We build things."; leaf [] "Join us."] else []).

Definition page_hirer_without_link : Tab :=
  mkTab (fun sel => if String.eqb sel ".hirer-card__hirer-information"
                    then Some (leaf [] "Jane Doe") else None)
        (fun _ => []).

(** The record of a rendered card on [page_with_description]. *)
Definition record_of (id title : string) : gmap string Py.value :=
  <["job_id" := PyStr id]> (<["job_link" := PyStr ("/jobs/" +:+ id)]>
  (<["title" := PyStr title]> (<["company" := PyStr "Acme"]>
  (<["location" := PyStr "Berlin"]> (<["hirer_name" := PyNone]>
  (<["hirer_profile_link" := PyNone]>
  (<["description" :=
       PyStr ("We build things." +:+ JobData.newline +:+ "Join us.")]> ∅))))))).

(** C2 (the code departs from it). [get_job_info] raises [AttributeError]
    on a card whose content wrapper is missing, and on a page whose hirer
    panel holds no link, instead of returning a record with null fields. *)
Theorem get_job_info_raises_on_missing_element :
  JobData.get_job_info page_with_description card_without_wrapper
    = Raise AttributeError
  /\ JobData.get_job_info page_hirer_without_link (rendered_card "42" "Engineer")
     = Raise AttributeError.
Proof. split; vm_compute; reflexivity. Qed.

Ltac bind_inv H :=
  match type of H with
  | Py.bind ?r _ = Ok _ =>
      let E := fresh "E" in
      destruct r eqn:E; [simpl in H | discriminate H]
  end.

(** A returned record has the description as its last assignment. *)
Lemma get_job_info_last_assignment page card job_info :
  JobData.get_job_info page card = Ok job_info ->
  exists fields : gmap string Py.value,
    job_info =
      <["description" :=
          match tab_query_selector_all page ".jobs-description__container p" with
          | [] => PyNone
          | ps => PyStr (String.concat JobData.newline (text <$> ps))
          end]> fields
    /\ dom fields = {[ "job_id"; "job_link"; "title"; "company"; "location";
                       "hirer_name"; "hirer_profile_link" ]}.
Proof.
  intros H. unfold JobData.get_job_info, JobData.query_selector_of in H.
  destruct (query_selector card ".job-card-job-posting-card-wrapper") as [w|];
    [|discriminate H].
  destruct (Utils.get_attributes (Some w)) as [attrs|]; [|discriminate H].
  simpl in H. bind_inv H. clear E.
  destruct (tab_query_selector page ".hirer-card__hirer-information") as [h|].
  - bind_inv H. bind_inv E. injection E as <-. injection H as <-.
    eexists. split.
    + destruct (tab_query_selector_all page ".jobs-description__container p");
        reflexivity.
    + rewrite !dom_insert_L, dom_empty_L. set_solver.
  - simpl in H. injection H as <-. eexists. split.
    + destruct (tab_query_selector_all page ".jobs-description__container p");
        reflexivity.
    + rewrite !dom_insert_L, dom_empty_L. set_solver.
Qed.

(** X1. A record returned by [get_job_info] is fully shaped: it has exactly
    the eight fields. *)
Lemma get_job_info_eight_fields page card job_info :
  JobData.get_job_info page card = Ok job_info ->
  dom job_info = {[ "job_id"; "job_link"; "title"; "company"; "location";
                    "hirer_name"; "hirer_profile_link"; "description" ]}.
Proof.
  intros (fields & -> & Hdom)%get_job_info_last_assignment.
  rewrite dom_insert_L, Hdom. set_solver.
Qed.

Lemma rendered_card_eight_fields :
  dom (record_of "42" "Engineer")
  = {[ "job_id"; "job_link"; "title"; "company"; "location";
       "hirer_name"; "hirer_profile_link"; "description" ]}.
Proof.
  apply (get_job_info_eight_fields page_with_description (rendered_card "42" "Engineer")).
  reflexivity.
Defined.

(** The texts of a list of paragraphs, each but the last followed by a
    line feed (the character of code 10). *)
Fixpoint newline_separated (texts : list string) : string :=
  match texts with
  | [] => ""
  | t :: rest =>
      match rest with
      | [] => t
      | _ :: _ => t +:+ String (ascii_of_nat 10) (newline_separated rest)
      end
  end.

Lemma concat_newline (texts : list string) :
  String.concat JobData.newline texts = newline_separated texts.
Proof.
  induction texts as [|t [|t' rest] IH]; [reflexivity | reflexivity |].
  change (String.concat JobData.newline (t :: t' :: rest))
    with (t +:+ JobData.newline +:+ String.concat JobData.newline (t' :: rest)).
  rewrite IH. reflexivity.
Qed.

(** C8. In the record [get_job_info] returns, [description] is the text of
    the paragraphs found under the page's job-description container, in
    the order found and separated by line feeds, and [None] when no
    paragraph is found. *)
Theorem get_job_info_description (page : Tab) (card : Element)
    (job_info : gmap string Py.value) :
  JobData.get_job_info page card = Ok job_info ->
  let paragraphs := tab_query_selector_all page ".jobs-description__container p" in
  (paragraphs = [] -> job_info !! "description" = Some PyNone) /\
  (paragraphs <> [] ->
   job_info !! "description"
     = Some (PyStr (newline_separated (text <$> paragraphs)))).
Proof.
  intros (fields & -> & _)%get_job_info_last_assignment paragraphs.
  rewrite lookup_insert_eq. subst paragraphs.
  destruct (tab_query_selector_all page ".jobs-description__container p").
  - split; [reflexivity | congruence].
  - split; [discriminate | rewrite concat_newline; reflexivity].
Qed.

(** Two paragraphs give their texts on two lines: 16 characters, a line
    feed, 8 characters. *)
Lemma get_job_info_description_two_paragraphs :
  exists job_info,
    JobData.get_job_info page_with_description (rendered_card "42" "Engineer")
      = Ok job_info
    /\ job_info !! "description"
       = Some (PyStr ("We build things." +:+ String (ascii_of_nat 10) "Join us."))
    /\ String.length ("We build things." +:+ String (ascii_of_nat 10) "Join us.") = 25.
Proof.
  exists (record_of "42" "Engineer").
  assert (E : JobData.get_job_info page_with_description (rendered_card "42" "Engineer")
              = Ok (record_of "42" "Engineer")) by reflexivity.
  split; [exact E|]. split; [|reflexivity].
  apply (proj2 (get_job_info_description _ _ _ E)). discriminate.
Defined.

(** ** The card loop of [main] *)

Section CrawlProperties.

Variable Store : Type.
Variable insert_job : Store -> gmap string Py.value -> Store.

(** The extractor returned the record [job_info] for the card. *)
Definition extracted (c : Element * Tab) (job_info : gmap string Py.value) : Prop :=
  JobData.get_job_info (snd c) (fst c) = Ok job_info.

(** The store after one [insert_job] per valid record, in order. *)
Definition writes (db : Store) (infos : list (gmap string Py.value)) : Store :=
  foldl insert_job db (List.filter JobData.validate_job_info infos).

Lemma crawl_cards_prefix job_cards infos :
  Forall2 extracted job_cards infos ->
  forall rest db,
    crawl_cards Store insert_job (job_cards ++ rest) db
    = crawl_cards Store insert_job rest (writes db infos).
Proof.
  unfold writes. induction 1 as [|[job page] job_info job_cards infos Hx _ IH];
    intros rest db; [reflexivity|].
  unfold extracted in Hx. simpl in *. rewrite Hx.
  destruct (JobData.validate_job_info job_info); simpl; apply IH.
Qed.

End CrawlProperties.

(** X3. The outcome of the loop is fixed by the first card on which the
    extractor raises.  When there is none, the loop ends normally and the
    store has received the valid records of all the cards, in card order.
    Otherwise the loop ends with that card's exception, the store has
    received the valid records of the cards before it, and the cards after
    it play no part. *)
Theorem crawl_cards_outcome (Store : Type)
    (insert_job : Store -> gmap string Py.value -> Store)
    (job_cards : list (Element * Tab)) (db : Store) :
  (exists infos,
     Forall2 extracted job_cards infos
     /\ crawl_cards Store insert_job job_cards db
        = (Ok tt, writes Store insert_job db infos))
  \/
  (exists before job page after infos e,
     job_cards = (before ++ (job, page) :: after)%list
     /\ Forall2 extracted before infos
     /\ JobData.get_job_info page job = Raise e
     /\ crawl_cards Store insert_job job_cards db
        = (Raise e, writes Store insert_job db infos)).
Proof.
  revert db. induction job_cards as [|[job page] job_cards IH]; intros db.
  - left. exists []. split; [constructor | reflexivity].
  - destruct (JobData.get_job_info page job) as [job_info|e] eqn:Hx.
    + assert (Hstep : crawl_cards Store insert_job ((job, page) :: job_cards) db
                      = crawl_cards Store insert_job job_cards
                          (writes Store insert_job db [job_info])).
      { unfold writes. simpl. rewrite Hx.
        destruct (JobData.validate_job_info job_info); reflexivity. }
      assert (Hwrites : forall infos,
                writes Store insert_job (writes Store insert_job db [job_info]) infos
                = writes Store insert_job db (job_info :: infos)).
      { intros infos. unfold writes. simpl.
        destruct (JobData.validate_job_info job_info); reflexivity. }
      destruct (IH (writes Store insert_job db [job_info]))
        as [(infos & Hall & Hrun)|(before & j & p & after & infos & e & -> & Hall & He & Hrun)].
      * left. exists (job_info :: infos). split; [constructor; assumption|].
        rewrite Hstep, Hrun, Hwrites. reflexivity.
      * right. exists ((job, page) :: before), j, p, after, (job_info :: infos), e.
        split; [reflexivity|]. split; [constructor; assumption|]. split; [exact He|].
        rewrite Hstep, Hrun, Hwrites. reflexivity.
    + right. exists [], job, page, job_cards, [], e.
      split; [reflexivity|]. split; [constructor|]. split; [exact Hx|].
      simpl. rewrite Hx. reflexivity.
Qed.

(** A card without a title, a card shown with a hirer panel that has no
    link, and a complete card. *)
Definition cards_with_hirer_gap : list (Element * Tab) :=
  [ (rendered_card "41" "", page_with_description);
    (rendered_card "42" "Engineer", page_hirer_without_link);
    (rendered_card "43" "Analyst", page_with_description) ].

(** C6 (the code departs from it). The first card of
    [cards_with_hirer_gap] gives a record that fails validation and the
    third a record that passes it, but the loop ends at the second card
    with the [AttributeError] of [get_job_info]: the third card is not
    visited and the store never receives its record. *)
Theorem crawl_cards_valid_card_not_reached :
  JobData.get_job_info page_with_description (rendered_card "41" "")
    = Ok (record_of "41" "")
  /\ JobData.validate_job_info (record_of "41" "") = false
  /\ JobData.get_job_info page_with_description (rendered_card "43" "Analyst")
     = Ok (record_of "43" "Analyst")
  /\ JobData.validate_job_info (record_of "43" "Analyst") = true
  /\ crawl_cards (list (gmap string Py.value)) (fun db j => (db ++ [j])%list)
       cards_with_hirer_gap []
     = (Raise AttributeError, []).
Proof. repeat split; vm_compute; reflexivity. Qed.

(** X23. Over cards on each of which the extractor returns a record, the
    loop calls [insert_job] once for each record that passes validation,
    in card order, and not at all for a record that fails it; a failed
    validation does not stop the loop, which goes on with the cards that
    follow and, when there are none, ends normally. *)
Theorem crawl_cards_writes_valid_cards (Store : Type)
    (insert_job : Store -> gmap string Py.value -> Store)
    (job_cards : list (Element * Tab)) (infos : list (gmap string Py.value)) :
  Forall2 extracted job_cards infos ->
  (forall rest db,
     crawl_cards Store insert_job (job_cards ++ rest) db
     = crawl_cards Store insert_job rest (writes Store insert_job db infos))
  /\
  (forall db,
     crawl_cards Store insert_job job_cards db
     = (Ok tt, foldl insert_job db (List.filter JobData.validate_job_info infos))).
Proof.
  intros Hx. split.
  - now apply crawl_cards_prefix.
  - intros db. rewrite <- (app_nil_r job_cards).
    rewrite (crawl_cards_prefix _ _ _ _ Hx). reflexivity.
Qed.

(** A card without a title between two complete cards: the store receives
    the first and the third record, and the loop ends normally. *)
Definition three_cards : list (Element * Tab) :=
  [ (rendered_card "41" "Engineer", page_with_description);
    (rendered_card "42" "", page_with_description);
    (rendered_card "43" "Analyst", page_with_description) ].

Lemma crawl_cards_skips_invalid_card :
  crawl_cards (list (gmap string Py.value)) (fun db j => (db ++ [j])%list) three_cards []
  = (Ok tt, [record_of "41" "Engineer"; record_of "43" "Analyst"]).
Proof.
  apply (proj2 (crawl_cards_writes_valid_cards _ (fun db j => (db ++ [j])%list) three_cards
                  [record_of "41" "Engineer"; record_of "42" ""; record_of "43" "Analyst"]
                  ltac:(repeat constructor; vm_compute; reflexivity)) []).
Defined.

(** ** [get_dashboard_stats] *)

Lemma count_all {A} (t : list A) : Db.count (fun _ => true) t = Z.of_nat (length t).
Proof.
  unfold Db.count. f_equal. induction t as [|x t IH]; simpl; [reflexivity | now rewrite IH].
Qed.

Lemma ratio_bounds (s t : Z) :
  (0 <= s <= t)%Z -> (0 < t)%Z ->
  (0 <= inject_Z s / inject_Z t * 100 /\ inject_Z s / inject_Z t * 100 <= 100)%Q.
Proof.
  intros Hs Ht. destruct t as [|p|p]; try lia.
  unfold Qle, Qdiv, Qmult, Qinv, inject_Z. simpl. split; nia.
Qed.

Lemma truediv_nonzero (a b : Z) :
  b <> 0%Z -> Db.truediv a b = Ok (inject_Z a / inject_Z b)%Q.
Proof.
  intros Hb. unfold Db.truediv. destruct (Z.eqb_spec b 0); [contradiction | reflexivity].
Qed.





(** ** [retry_failed_application] *)

(** The notes after a retry: the audit note is appended to existing notes
    and stands alone when there were none. *)
Definition notes_after_retry (old : option string) : option string :=
  match old with
  | Some n => Some (n +:+ " | Retry requested")
  | None => Some "Retry requested"
  end.

Lemma retry_row_notes a : Db.notes (Db.retry_row a) = notes_after_retry (Db.notes a).
Proof. unfold Db.retry_row. simpl. destruct (Db.notes a); reflexivity. Qed.

(** The update rewrites every row with the given id and no other row. *)
Lemma retry_failed_application_lookup (db : Db.database) (id : Z) (i : nat) :
  Db.applications (Db.retry_failed_application id db) !! i =
  (fun a => if (Db.application_id a =? id)%Z then Db.retry_row a else a)
    <$> Db.applications db !! i.
Proof. unfold Db.retry_failed_application. simpl. apply list_lookup_fmap. Qed.

Lemma retry_failed_application_jobs (db : Db.database) (id : Z) :
  Db.jobs (Db.retry_failed_application id db) = Db.jobs db.
Proof. reflexivity. Qed.



(** C1 (the code departs from it). [retry_failed_application] on an
    application in state ['submitted'] moves it to ['pending'] and changes
    its notes: the update has no guard on the current status. *)
Theorem retry_failed_application_moves_submitted :
  Db.applications
    (Db.retry_failed_application 7
       {| Db.jobs := [];
          Db.applications :=
            [Db.mkApplication 7 (Some "4021") "submitted" (Some 19000%Z) (Some "sent")] |})
  = [Db.mkApplication 7 (Some "4021") "pending" (Some 19000%Z)
                      (Some "sent | Retry requested")].
Proof. reflexivity. Qed.

(** C5. Retrying an application in state ['failed'] sets its status to
    ['pending'] and appends the note [Retry requested] to its notes (the
    notes become exactly [Retry requested] when they were [NULL]); the
    other columns of the row keep their values. *)
Theorem retry_failed_application_failed_to_pending
    (db : Db.database) (i : nat) (a : Db.application_row) :
  Db.applications db !! i = Some a ->
  Db.status a = "failed" ->
  exists a',
    Db.applications (Db.retry_failed_application (Db.application_id a) db) !! i = Some a'
    /\ Db.status a' = "pending"
    /\ Db.notes a' = match Db.notes a with
                     | Some n => Some (n +:+ " | Retry requested")
                     | None => Some "Retry requested"
                     end
    /\ Db.application_id a' = Db.application_id a
    /\ Db.app_job_id a' = Db.app_job_id a
    /\ Db.applied_date a' = Db.applied_date a.
Proof.
  intros Hi _. exists (Db.retry_row a).
  rewrite retry_failed_application_lookup, Hi. simpl. rewrite Z.eqb_refl.
  repeat split. apply retry_row_notes.
Qed.

(** A failed application with notes, and one without. *)
Lemma retry_failed_application_appends_note :
  let db := {| Db.jobs := [];
               Db.applications :=
                 [Db.mkApplication 1 (Some "4021") "failed" None (Some "timeout");
                  Db.mkApplication 2 (Some "4022") "failed" None None] |} in
  (exists a',
     Db.applications (Db.retry_failed_application 1 db) !! 0 = Some a'
     /\ Db.status a' = "pending" /\ Db.notes a' = Some "timeout | Retry requested")
  /\
  (exists a',
     Db.applications (Db.retry_failed_application 2 db) !! 1 = Some a'
     /\ Db.status a' = "pending" /\ Db.notes a' = Some "Retry requested").
Proof.
  intros db. split.
  - destruct (retry_failed_application_failed_to_pending db 0
                (Db.mkApplication 1 (Some "4021") "failed" None (Some "timeout"))
                eq_refl eq_refl) as (a' & H1 & H2 & H3 & _).
    exists a'. repeat split; assumption.
  - destruct (retry_failed_application_failed_to_pending db 1
                (Db.mkApplication 2 (Some "4022") "failed" None None)
                eq_refl eq_refl) as (a' & H1 & H2 & H3 & _).
    exists a'. repeat split; assumption.
Defined.

(** ** [get_success_rate_by_company] *)





#[global] Instance by_rate_desc_trans : Transitive Db.by_rate_desc.
Proof. intros x y z Hxy Hyz. unfold Db.by_rate_desc in *. eapply Qle_trans; eassumption. Qed.

#[global] Instance by_rate_desc_total : Total Db.by_rate_desc.
Proof.
  intros x y. unfold Db.by_rate_desc.
  destruct (Qlt_le_dec (Db.rate_success_rate x) (Db.rate_success_rate y)) as [H|H].
  - right. now apply Qlt_le_weak.
  - left. exact H.
Qed.



Section Rollup.

Variable db : Db.database.

(** [job_id] is the primary key of [jobs]. *)
Hypothesis job_id_unique : NoDup (Db.job_id <$> Db.jobs db).














End Rollup.







(** Why the rate is stated with a tolerance: with 23 submitted applications
    out of 160, 100 times the ratio is 14.375, which rounds to 14.38, but
    the binary64 value of [23 / 160 * 100] lies below 14.375, so that its
    rounding to two decimals is 14.37. *)
Lemma percent_binary64_below_tie :
  (inject_Z 23 / inject_Z 160 * 100 == 14375 # 1000)%Q
  /\ (Db.sql_round2 (inject_Z 23 / inject_Z 160 * 100) == 1438 # 100)%Q
  /\ PrimFloat.ltb (Db.percent_binary64 23 160) 14.375%float = true.
Proof. repeat split; vm_compute; reflexivity. Qed.





(** * Further properties *)

(** ** [get_attributes]: which lists give a dictionary, and its names *)

Lemma attrs_to_dict_even (attrs : list string) (n : nat) :
  length attrs = 2 * n ->
  exists d, Utils.attrs_to_dict attrs = Ok d /\ binds_last attrs n d.
Proof.
  intros Hlen. unfold Utils.attrs_to_dict, Py.range_step2.
  rewrite Hlen, div2_even. apply attr_fold_prefix. lia.
Qed.

Lemma attrs_to_dict_odd (attrs : list string) (n : nat) :
  length attrs = 2 * n + 1 ->
  Utils.attrs_to_dict attrs = Raise IndexError.
Proof.
  intros Hlen. unfold Utils.attrs_to_dict, Py.range_step2.
  rewrite Hlen, div2_odd, seq_S, fmap_app, foldl_app.
  destruct (attr_fold_prefix attrs n) as (d & -> & _); [lia|].
  simpl. unfold Utils.attr_step, Py.index. simpl.
  replace (n + (n + 0)) with (2 * n) by lia.
  destruct (lookup_lt_is_Some_2 attrs (2 * n)) as [k ->]; [lia|].
  unfold Py.bind at 1.
  rewrite (lookup_ge_None_2 attrs (2 * n + 1)) by lia.
  reflexivity.
Qed.

Lemma even_or_odd (m : nat) : exists n, m = 2 * n \/ m = 2 * n + 1.
Proof.
  exists (Nat.div2 m). destruct (Nat.Even_or_Odd m) as [[k ->]|[k ->]].
  - left. now rewrite Nat.div2_double.
  - right. replace (2 * k + 1) with (S (2 * k)) by lia.
    rewrite Nat.div2_succ_double. lia.
Qed.

(** A returned dictionary comes from a list of even length and binds the
    last value of every name. *)
Lemma attrs_to_dict_Ok (attrs : list string) (d : gmap string string) :
  Utils.attrs_to_dict attrs = Ok d ->
  exists n, length attrs = 2 * n /\ binds_last attrs n d.
Proof.
  intros Hd. destruct (even_or_odd (length attrs)) as [n [Hn|Hn]].
  - exists n. split; [exact Hn|].
    destruct (attrs_to_dict_even attrs n Hn) as (d' & Hd' & Hlast).
    rewrite Hd in Hd'. injection Hd' as <-. exact Hlast.
  - rewrite (attrs_to_dict_odd attrs n Hn) in Hd. discriminate Hd.
Qed.

(** Among the indices below [m] that satisfy a decidable property there is
    a last one. *)
Lemma last_index (P : nat -> Prop) `{!forall i, Decision (P i)} (m i : nat) :
  i < m -> P i -> exists l, l < m /\ P l /\ forall j, l < j < m -> ~ P j.
Proof.
  induction m as [|m IH]; intros Hi HP; [lia|].
  destruct (decide (P m)) as [Hm|Hm].
  - exists m. repeat split; [lia | exact Hm | intros j Hj; lia].
  - destruct (decide (i = m)) as [->|Hne]; [contradiction|].
    destruct IH as (l & Hl & HPl & Hlast); [lia | exact HP |].
    exists l. repeat split; [lia | exact HPl |].
    intros j Hj. destruct (decide (j = m)) as [->|Hjm]; [exact Hm|].
    apply Hlast. lia.
Qed.

(** X4. In the dictionary [get_attributes] returns, looking a name up with
    [.get(name, None)] gives [None] exactly when the name is not one of the
    names of the flat list (its entries at even positions); an element
    without attributes gives a dictionary without names. *)
Theorem get_attributes_get_none (e : Element) (d : gmap string string) :
  Utils.get_attributes (Some e) = Ok d ->
  (forall name,
     Py.get d name = PyNone <-> forall i, attributes e !! (2 * i) <> Some name)
  /\ (attributes e = [] -> d = ∅).
Proof.
  simpl. intros (n & Hlen & Hlast)%attrs_to_dict_Ok. split.
  - intros name. unfold Py.get. split.
    + destruct (d !! name) as [v|] eqn:Hd; [discriminate|]. intros _ i Hi.
      assert (2 * i < length (attributes e)) as Hlt
        by (apply lookup_lt_is_Some; eauto).
      destruct (last_index (fun j => attributes e !! (2 * j) = Some name) n i)
        as (l & Hl & Hname & Hafter); [lia | exact Hi |].
      destruct (lookup_lt_is_Some_2 (attributes e) (2 * l + 1)) as [v Hv]; [lia|].
      assert (d !! name = Some v) as Hsome
        by (apply Hlast; exists l; repeat split; assumption).
      congruence.
    + intros Hnone. destruct (d !! name) as [v|] eqn:Hd; [|reflexivity].
      apply Hlast in Hd as (i & _ & Hi & _). exfalso. exact (Hnone i Hi).
  - intros Hnil. apply map_eq. intros name. rewrite lookup_empty.
    destruct (d !! name) as [v|] eqn:Hd; [|reflexivity].
    apply Hlast in Hd as (i & _ & Hi & _). rewrite Hnil in Hi. discriminate Hi.
Qed.

(** An element with [class] and [href]: [id] is not among its names. *)
Lemma get_attributes_get_none_id :
  exists d,
    Utils.get_attributes
      (Some (mkElement ["class"; "card"; "href"; "/jobs/7"] "" (fun _ => None) (fun _ => [])))
    = Ok d
    /\ Py.get d "id" = PyNone.
Proof.
  destruct (attrs_to_dict_even ["class"; "card"; "href"; "/jobs/7"] 2 eq_refl)
    as (d & Hd & _).
  exists d. split; [exact Hd|].
  apply (proj1 (get_attributes_get_none
                  (mkElement ["class"; "card"; "href"; "/jobs/7"] ""
                             (fun _ => None) (fun _ => [])) d Hd)).
  intros i Hi. pose proof (lookup_lt_Some _ _ _ Hi) as Hlt. simpl in Hlt.
  destruct i as [|[|i]]; [discriminate Hi | discriminate Hi | lia].
Defined.

(** ** [make_linkedin_url]: the characters of the query string, and the
    keyword read back *)

(** The characters [urlencode] can produce: unreserved characters and
    [%], [+], [=], [&]. *)
Definition query_char (c : ascii) : bool :=
  Url.always_safe c || Ascii.eqb c "%" || Ascii.eqb c "+"
  || Ascii.eqb c "=" || Ascii.eqb c "&".

Lemma quote_byte_query_chars c : all_chars query_char (Url.quote_byte c) = true.
Proof.
  destruct c as [[] [] [] [] [] [] [] []]; vm_compute; reflexivity.
Qed.

Lemma quote_plus_query_chars s : all_chars query_char (Url.quote_plus s) = true.
Proof.
  induction s as [|c s IH]; simpl; [reflexivity|].
  rewrite all_chars_app, quote_byte_query_chars, IH. reflexivity.
Qed.

Lemma urlencode_query_chars params : all_chars query_char (Url.urlencode params) = true.
Proof.
  unfold Url.urlencode. induction params as [|kv params IH]; [reflexivity|].
  destruct params as [|kv' params].
  - simpl. rewrite !all_chars_app, !quote_plus_query_chars. reflexivity.
  - rewrite !fmap_cons in *.
    change (String.concat "&" (?x :: ?y :: ?l))
      with (x +:+ String "&" (String.concat "&" (y :: l))).
    rewrite (all_chars_app _ (_ +:+ _ +:+ _)), !all_chars_app, !quote_plus_query_chars.
    simpl. exact IH.
Qed.

(** X5. Whatever the keyword and the geo id hold (spaces, [&], [=], [#],
    non-ASCII bytes), the query string [make_linkedin_url] puts after
    [base_url + "?"] consists of ASCII letters, digits and the characters
    [_ . - ~ % + = &] only. *)
Theorem make_linkedin_url_query_chars (base_url keyword : string)
    (geo_id : Py.value) (easy_apply : bool) :
  exists q,
    Utils.make_linkedin_url base_url keyword geo_id easy_apply = base_url +:+ "?" +:+ q
    /\ all_chars query_char q = true.
Proof.
  exists (Url.urlencode (Utils.linkedin_params keyword geo_id easy_apply)).
  split; [reflexivity | apply urlencode_query_chars].
Qed.

(** [urllib.parse.unquote_plus] on byte strings: [+] is a space, [%XY] is
    the byte with hexadecimal digits [X], [Y]. *)
Definition hex_value (c : ascii) : option N :=
  let n := N_of_ascii c in
  if ((48 <=? n) && (n <=? 57))%N then Some (n - 48)%N
  else if ((65 <=? n) && (n <=? 70))%N then Some (n - 55)%N
  else if ((97 <=? n) && (n <=? 102))%N then Some (n - 87)%N
  else None.

Fixpoint unquote_plus (s : string) : string :=
  match s with
  | EmptyString => ""
  | String c r =>
      if Ascii.eqb c "+" then String " " (unquote_plus r)
      else if Ascii.eqb c "%" then
        match r with
        | String h (String l r') =>
            match hex_value h, hex_value l with
            | Some x, Some y => String (ascii_of_N (16 * x + y)) (unquote_plus r')
            | _, _ => String c (unquote_plus r)
            end
        | _ => String c (unquote_plus r)
        end
      else String c (unquote_plus r)
  end.

Lemma unquote_quote_byte c r :
  unquote_plus (Url.quote_byte c +:+ r) = String c (unquote_plus r).
Proof.
  destruct c as [[] [] [] [] [] [] [] []]; reflexivity.
Qed.

Lemma unquote_quote_plus s : unquote_plus (Url.quote_plus s) = s.
Proof.
  induction s as [|c s IH]; [reflexivity|].
  simpl. rewrite unquote_quote_byte, IH. reflexivity.
Qed.

Lemma string_app_inv_head (a b c : string) : a +:+ b = a +:+ c -> b = c.
Proof.
  induction a as [|x a IH]; simpl; [auto|]. intros [= H]. auto.
Qed.

Lemma linkedin_params_head keyword geo_id easy_apply :
  exists rest,
    Utils.linkedin_params keyword geo_id easy_apply = ("keywords", PyStr keyword) :: rest.
Proof.
  unfold Utils.linkedin_params.
  destruct (Py.truthy geo_id), easy_apply; simpl; eauto.
Qed.

(** X6. The keyword can be read back from the URL: decoding the value of
    the first query parameter with [unquote_plus] gives the keyword, so two
    keywords that differ give two URLs that differ. *)
Theorem make_linkedin_url_keyword_read_back (base_url keyword : string)
    (geo_id : Py.value) (easy_apply : bool) :
  (exists q rest,
     Utils.make_linkedin_url base_url keyword geo_id easy_apply = base_url +:+ "?" +:+ q
     /\ query_pairs q = ("keywords", Url.quote_plus keyword) :: rest
     /\ unquote_plus (Url.quote_plus keyword) = keyword)
  /\ (forall keyword',
        Utils.make_linkedin_url base_url keyword' geo_id easy_apply
        = Utils.make_linkedin_url base_url keyword geo_id easy_apply ->
        keyword' = keyword).
Proof.
  split.
  - destruct (linkedin_params_head keyword geo_id easy_apply) as [rest Hp].
    exists (Url.urlencode (Utils.linkedin_params keyword geo_id easy_apply)).
    eexists. split; [reflexivity|]. split; [|apply unquote_quote_plus].
    rewrite Hp, query_pairs_urlencode, fmap_cons. reflexivity.
  - intros keyword' Heq. unfold Utils.make_linkedin_url in Heq. cbv zeta in Heq.
    apply string_app_inv_head, (string_app_inv_head "?") in Heq.
    apply (f_equal query_pairs) in Heq.
    destruct (linkedin_params_head keyword geo_id easy_apply) as [rest Hp].
    destruct (linkedin_params_head keyword' geo_id easy_apply) as [rest' Hp'].
    rewrite Hp, Hp', !query_pairs_urlencode, !fmap_cons in Heq.
    injection Heq as Hq _. simpl in Hq.
    rewrite <- (unquote_quote_plus keyword), <- (unquote_quote_plus keyword').
    now rewrite Hq.
Qed.

(** ** [get_job_info]: when it returns, and what the record holds *)

(** The [job_link] field: the [href] of the wrapper's first link, [None]
    without a link. *)
Definition link_href (w : Element) : result Py.value :=
  match query_selector w "a" with
  | Some l => let* a := Utils.get_attributes (Some l) in Ok (Py.get a "href")
  | None => Ok PyNone
  end.

(** The [hirer_name] and [hirer_profile_link] fields. *)
Definition hirer_fields (page : Tab) : result (Py.value * Py.value) :=
  match tab_query_selector page ".hirer-card__hirer-information" with
  | Some h =>
      let* a := Utils.get_attributes (query_selector h "a") in
      Ok (PyStr (text h), Py.get a "href")
  | None => Ok (PyNone, PyNone)
  end.

(** The [description] field. *)
Definition description_field (page : Tab) : Py.value :=
  match tab_query_selector_all page ".jobs-description__container p" with
  | [] => PyNone
  | ps => PyStr (String.concat JobData.newline (text <$> ps))
  end.

(** The record built from the parts. *)
Definition job_record (w : Element) (d : gmap string string)
    (href : Py.value) (hirer : Py.value * Py.value) (page : Tab)
  : gmap string Py.value :=
  <["description" := description_field page]>
  (<["hirer_profile_link" := snd hirer]>
  (<["hirer_name" := fst hirer]>
  (<["location" :=
       JobData.text_or_none (query_selector w ".artdeco-entity-lockup__caption")]>
  (<["company" :=
       JobData.text_or_none (query_selector w ".artdeco-entity-lockup__subtitle")]>
  (<["title" := JobData.text_or_none (query_selector w "strong")]>
  (<["job_link" := href]>
  (<["job_id" := Py.get d "data-job-id"]> ∅))))))).

(** [get_job_info] returns exactly when the wrapper is there and the three
    parts that can raise do not, and then returns the record of the
    parts. *)
Lemma get_job_info_inv (page : Tab) (card : Element) (job_info : gmap string Py.value) :
  JobData.get_job_info page card = Ok job_info <->
  exists w d href hirer,
    query_selector card ".job-card-job-posting-card-wrapper" = Some w
    /\ Utils.get_attributes (Some w) = Ok d
    /\ link_href w = Ok href
    /\ hirer_fields page = Ok hirer
    /\ job_info = job_record w d href hirer page.
Proof.
  unfold JobData.get_job_info, JobData.query_selector_of, link_href, hirer_fields,
    job_record, description_field.
  split.
  - intros H.
    destruct (query_selector card ".job-card-job-posting-card-wrapper") as [w|];
      [|discriminate H].
    destruct (Utils.get_attributes (Some w)) as [d|] eqn:Hd; [|discriminate H].
    simpl in H. exists w, d.
    destruct (match query_selector w "a" with Some _ => _ | None => _ end)
      as [href|] eqn:Hhref; [|discriminate H].
    simpl in H. exists href.
    destruct (tab_query_selector page ".hirer-card__hirer-information") as [h|].
    + destruct (Utils.get_attributes (query_selector h "a")) as [a|];
        [|discriminate H].
      simpl in H. injection H as <-. eexists.
      split; [reflexivity|]. split; [exact Hd|].
      split; [destruct (query_selector w "a"); exact Hhref|].
      split; [reflexivity|].
      destruct (tab_query_selector_all page ".jobs-description__container p");
        reflexivity.
    + simpl in H. injection H as <-. eexists.
      split; [reflexivity|]. split; [exact Hd|].
      split; [destruct (query_selector w "a"); exact Hhref|].
      split; [reflexivity|].
      destruct (tab_query_selector_all page ".jobs-description__container p");
        reflexivity.
  - intros (w & d & href & hirer & -> & Hd & Hhref & Hhirer & ->).
    rewrite Hd. simpl.
    destruct (query_selector w "a") as [l|].
    + rewrite Hhref. simpl.
      destruct (tab_query_selector page ".hirer-card__hirer-information") as [h|].
      * destruct (Utils.get_attributes (query_selector h "a")) as [a|];
          [|discriminate Hhirer].
        simpl in *. injection Hhirer as <-. simpl.
        destruct (tab_query_selector_all page ".jobs-description__container p");
          reflexivity.
      * injection Hhirer as <-. simpl.
        destruct (tab_query_selector_all page ".jobs-description__container p");
          reflexivity.
    + injection Hhref as <-. simpl.
      destruct (tab_query_selector page ".hirer-card__hirer-information") as [h|].
      * destruct (Utils.get_attributes (query_selector h "a")) as [a|];
          [|discriminate Hhirer].
        simpl in *. injection Hhirer as <-. simpl.
        destruct (tab_query_selector_all page ".jobs-description__container p");
          reflexivity.
      * injection Hhirer as <-. simpl.
        destruct (tab_query_selector_all page ".jobs-description__container p");
          reflexivity.
Qed.

Definition even_attributes (e : Element) : Prop :=
  Nat.even (length (attributes e)) = true.

Lemma get_attributes_Ok_even (e : Element) :
  (exists d, Utils.get_attributes (Some e) = Ok d) <-> even_attributes e.
Proof.
  unfold even_attributes. simpl. split.
  - intros (d & (n & Hlen & _)%attrs_to_dict_Ok). rewrite Hlen.
    apply Nat.even_spec. now exists n.
  - intros [n Hn]%Nat.even_spec.
    destruct (attrs_to_dict_even (attributes e) n Hn) as (d & Hd & _). eauto.
Qed.

Lemma link_href_Ok (w : Element) :
  (exists href, link_href w = Ok href) <->
  forall l, query_selector w "a" = Some l -> even_attributes l.
Proof.
  unfold link_href. destruct (query_selector w "a") as [l|].
  - split.
    + intros [href H] l' [= <-]. apply get_attributes_Ok_even.
      destruct (Utils.get_attributes (Some l)) as [a|]; [eauto | discriminate H].
    + intros Hl. destruct (proj2 (get_attributes_Ok_even l) (Hl l eq_refl)) as [a ->].
      simpl. eauto.
  - split; [intros _ l [=] | eauto].
Qed.

Lemma hirer_fields_Ok (page : Tab) :
  (exists hirer, hirer_fields page = Ok hirer) <->
  forall h, tab_query_selector page ".hirer-card__hirer-information" = Some h ->
            exists l, query_selector h "a" = Some l /\ even_attributes l.
Proof.
  unfold hirer_fields.
  destruct (tab_query_selector page ".hirer-card__hirer-information") as [h|].
  - split.
    + intros [hirer H] h' [= <-]. destruct (query_selector h "a") as [l|].
      * exists l. split; [reflexivity|]. apply get_attributes_Ok_even.
        destruct (Utils.get_attributes (Some l)) as [a|]; [eauto | discriminate H].
      * discriminate H.
    + intros Hh. destruct (Hh h eq_refl) as (l & -> & Hl).
      destruct (proj2 (get_attributes_Ok_even l) Hl) as [a ->]. simpl. eauto.
  - split; [intros _ h [=] | eauto].
Qed.

(** X7. [get_job_info] returns a record exactly when the card has its
    content wrapper, the wrapper's flat attribute list has even length, so
    has the attribute list of the wrapper's first link when there is one,
    and an open hirer panel holds a link whose attribute list has even
    length; in every other case it raises. *)
Theorem get_job_info_returns_iff (page : Tab) (card : Element) :
  (exists job_info, JobData.get_job_info page card = Ok job_info) <->
  exists w,
    query_selector card ".job-card-job-posting-card-wrapper" = Some w
    /\ even_attributes w
    /\ (forall l, query_selector w "a" = Some l -> even_attributes l)
    /\ (forall h, tab_query_selector page ".hirer-card__hirer-information" = Some h ->
                  exists l, query_selector h "a" = Some l /\ even_attributes l).
Proof.
  split.
  - intros [job_info (w & d & href & hirer & Hw & Hd & Hhref & Hhirer & _)%get_job_info_inv].
    exists w. split; [exact Hw|].
    split; [apply get_attributes_Ok_even; eauto|].
    split; [apply link_href_Ok; eauto | apply hirer_fields_Ok; eauto].
  - intros (w & Hw & [d Hd]%get_attributes_Ok_even & [href Hhref]%link_href_Ok
              & [hirer Hhirer]%hirer_fields_Ok).
    exists (job_record w d href hirer page). apply get_job_info_inv.
    exists w, d, href, hirer. auto.
Qed.

Lemma job_record_lookup w d href hirer page :
  let r := job_record w d href hirer page in
  r !! "job_id" = Some (Py.get d "data-job-id")
  /\ r !! "job_link" = Some href
  /\ r !! "title" = Some (JobData.text_or_none (query_selector w "strong"))
  /\ r !! "company"
     = Some (JobData.text_or_none (query_selector w ".artdeco-entity-lockup__subtitle"))
  /\ r !! "location"
     = Some (JobData.text_or_none (query_selector w ".artdeco-entity-lockup__caption"))
  /\ r !! "hirer_name" = Some (fst hirer)
  /\ r !! "hirer_profile_link" = Some (snd hirer).
Proof.
  unfold job_record. cbv zeta.
  repeat split;
    repeat (rewrite lookup_insert_ne by discriminate); apply lookup_insert_eq.
Qed.

(** X8. In the record [get_job_info] returns, [job_id] is the wrapper's
    [data-job-id] attribute, [title], [company] and [location] are the texts
    of the wrapper's [strong], subtitle and caption elements, each [None]
    when the attribute or element is missing; [job_link] is [None] when the
    wrapper has no link; [hirer_name] is the text of the open hirer panel,
    and both hirer fields are [None] when no panel is open. *)
Theorem get_job_info_fields (page : Tab) (card : Element)
    (job_info : gmap string Py.value) :
  JobData.get_job_info page card = Ok job_info ->
  exists w d,
    query_selector card ".job-card-job-posting-card-wrapper" = Some w
    /\ Utils.get_attributes (Some w) = Ok d
    /\ job_info !! "job_id"
       = Some (match d !! "data-job-id" with Some s => PyStr s | None => PyNone end)
    /\ job_info !! "title"
       = Some (match query_selector w "strong" with
               | Some e => PyStr (text e) | None => PyNone end)
    /\ job_info !! "company"
       = Some (match query_selector w ".artdeco-entity-lockup__subtitle" with
               | Some e => PyStr (text e) | None => PyNone end)
    /\ job_info !! "location"
       = Some (match query_selector w ".artdeco-entity-lockup__caption" with
               | Some e => PyStr (text e) | None => PyNone end)
    /\ (query_selector w "a" = None -> job_info !! "job_link" = Some PyNone)
    /\ (forall l a, query_selector w "a" = Some l ->
                    Utils.get_attributes (Some l) = Ok a ->
                    job_info !! "job_link"
                    = Some (match a !! "href" with Some s => PyStr s | None => PyNone end))
    /\ (forall h, tab_query_selector page ".hirer-card__hirer-information" = Some h ->
                  job_info !! "hirer_name" = Some (PyStr (text h)))
    /\ (tab_query_selector page ".hirer-card__hirer-information" = None ->
        job_info !! "hirer_name" = Some PyNone
        /\ job_info !! "hirer_profile_link" = Some PyNone).
Proof.
  intros (w & d & href & hirer & Hw & Hd & Hhref & Hhirer & ->)%get_job_info_inv.
  destruct (job_record_lookup w d href hirer page)
    as (Hid & Hlink & Htitle & Hcompany & Hlocation & Hname & Hprofile).
  exists w, d. split; [exact Hw|]. split; [exact Hd|].
  split; [exact Hid|]. split; [exact Htitle|]. split; [exact Hcompany|].
  split; [exact Hlocation|]. unfold link_href, hirer_fields in *.
  split; [|split; [|split]].
  - intros Hnone. rewrite Hnone in Hhref. injection Hhref as <-. exact Hlink.
  - intros l a Hl Ha. rewrite Hl, Ha in Hhref. injection Hhref as <-. exact Hlink.
  - intros h Hh. rewrite Hh in Hhirer.
    destruct (Utils.get_attributes (query_selector h "a")); [|discriminate Hhirer].
    injection Hhirer as <-. exact Hname.
  - intros Hnone. rewrite Hnone in Hhirer. injection Hhirer as <-. auto.
Qed.

(** A rendered card on a page with an open hirer panel holding a link. *)
Definition page_with_hirer : Tab :=
  mkTab (fun sel => if String.eqb sel ".hirer-card__hirer-information"
                    then Some (mkElement [] "Jane Doe"
                                 (fun s => if String.eqb s "a"
                                           then Some (leaf ["href"; "/in/jane"] "")
                                           else None)
                                 (fun _ => []))
                    else None)
        (fun _ => []).

Lemma get_job_info_fields_with_hirer :
  exists job_info,
    JobData.get_job_info page_with_hirer (rendered_card "42" "Engineer") = Ok job_info
    /\ job_info !! "job_id" = Some (PyStr "42")
    /\ job_info !! "title" = Some (PyStr "Engineer")
    /\ job_info !! "hirer_name" = Some (PyStr "Jane Doe").
Proof.
  destruct (proj2 (get_job_info_inv page_with_hirer (rendered_card "42" "Engineer") _)
              (ex_intro _ (rendered_wrapper "42" "Engineer")
                 (ex_intro _ {[ "data-job-id" := "42" ]}
                    (ex_intro _ (PyStr "/jobs/42")
                       (ex_intro _ (PyStr "Jane Doe", PyStr "/in/jane")
                          (conj eq_refl (conj eq_refl (conj eq_refl
                             (conj eq_refl eq_refl)))))))))
    as [].
  eexists. split; [reflexivity|].
  destruct (get_job_info_fields page_with_hirer (rendered_card "42" "Engineer") _ eq_refl)
    as (w & d & Hw & Hd & Hid & Htitle & _ & _ & _ & _ & Hname & _).
  injection Hw as <-. injection Hd as <-.
  split; [exact Hid|]. split; [exact Htitle|]. exact (Hname _ eq_refl).
Defined.

(** An element that is there and has a non-empty text. *)
Definition has_text (o : option Element) : Prop :=
  exists e, o = Some e /\ text e <> "".

Lemma get_PyStr (d : gmap string string) (k s : string) :
  Py.get d k = PyStr s <-> d !! k = Some s.
Proof.
  unfold Py.get. destruct (d !! k); split; congruence.
Qed.

Lemma text_or_none_nonempty (o : option Element) :
  (exists s, JobData.text_or_none o = PyStr s /\ s <> "") <-> has_text o.
Proof.
  unfold has_text. destruct o as [e|]; simpl; split.
  - intros (s & [= <-] & Hs). eauto.
  - intros (e' & [= <-] & Hs). eauto.
  - intros (s & [=] & _).
  - intros (e & [=] & _).
Qed.

Lemma link_href_nonempty (w : Element) (href : Py.value) :
  link_href w = Ok href ->
  (exists s, href = PyStr s /\ s <> "") <->
  (exists l a s, query_selector w "a" = Some l
                 /\ Utils.get_attributes (Some l) = Ok a
                 /\ a !! "href" = Some s /\ s <> "").
Proof.
  unfold link_href. destruct (query_selector w "a") as [l|].
  - destruct (Utils.get_attributes (Some l)) as [a|] eqn:Ha; [|discriminate].
    unfold Py.bind. intros [= <-]. split.
    + intros (s & Hs%get_PyStr & Hne). exists l, a, s. auto.
    + intros (l' & a' & s & [= <-] & Ha' & Hs & Hne).
      rewrite Ha in Ha'. injection Ha' as <-.
      exists s. split; [now apply get_PyStr | exact Hne].
  - intros [= <-]. split.
    + intros (s & [=] & _).
    + intros (l & a & s & [=] & _).
Qed.

(** X9. A record returned by [get_job_info] passes [validate_job_info]
    exactly when the card's wrapper has a non-empty [data-job-id] attribute,
    a link with a non-empty [href], and [strong], subtitle and caption
    elements with non-empty text; the page outside the card (hirer panel,
    description) plays no part. *)
Theorem get_job_info_valid_iff (page : Tab) (card : Element)
    (job_info : gmap string Py.value) :
  JobData.get_job_info page card = Ok job_info ->
  exists w d,
    query_selector card ".job-card-job-posting-card-wrapper" = Some w
    /\ Utils.get_attributes (Some w) = Ok d
    /\ (JobData.validate_job_info job_info = true <->
        (exists s, d !! "data-job-id" = Some s /\ s <> "")
        /\ (exists l a s, query_selector w "a" = Some l
                          /\ Utils.get_attributes (Some l) = Ok a
                          /\ a !! "href" = Some s /\ s <> "")
        /\ has_text (query_selector w "strong")
        /\ has_text (query_selector w ".artdeco-entity-lockup__subtitle")
        /\ has_text (query_selector w ".artdeco-entity-lockup__caption")).
Proof.
  intros (w & d & href & hirer & Hw & Hd & Hhref & Hhirer & ->)%get_job_info_inv.
  exists w, d. split; [exact Hw|]. split; [exact Hd|].
  destruct (job_record_lookup w d href hirer page)
    as (Hid & Hlink & Htitle & Hcompany & Hlocation & _).
  unfold JobData.validate_job_info, JobData.required_fields.
  rewrite validate_fields_Forall, !Forall_cons, Forall_nil.
  unfold present_nonempty. rewrite Hid, Hlink, Htitle, Hcompany, Hlocation.
  rewrite <- (link_href_nonempty w href Hhref), <- !text_or_none_nonempty.
  assert (Hsome : forall v : Py.value,
            (exists s, Some v = Some (PyStr s) /\ s <> "")
            <-> (exists s, v = PyStr s /\ s <> "")).
  { intros v. split; intros (s & Hs & Hne); exists s; split; congruence. }
  rewrite !Hsome.
  assert (Hget : (exists s, Py.get d "data-job-id" = PyStr s /\ s <> "")
                 <-> (exists s, d !! "data-job-id" = Some s /\ s <> "")).
  { split; intros (s & Hs & Hne); exists s; split; try apply get_PyStr; assumption. }
  rewrite Hget. tauto.
Qed.

(** The rendered card validates; the same card with an empty title does
    not. *)
Lemma rendered_card_valid_iff_titled :
  JobData.validate_job_info (record_of "42" "Engineer") = true
  /\ JobData.validate_job_info (record_of "42" "") = false.
Proof.
  destruct (get_job_info_valid_iff page_with_description (rendered_card "42" "Engineer")
              (record_of "42" "Engineer") eq_refl)
    as (w & d & Hw & Hd & Hvalid).
  destruct (get_job_info_valid_iff page_with_description (rendered_card "42" "")
              (record_of "42" "") eq_refl)
    as (w' & d' & Hw' & Hd' & Hinvalid).
  injection Hw as <-. injection Hw' as <-. split.
  - apply Hvalid.
    assert (Utils.get_attributes (Some (rendered_wrapper "42" "Engineer"))
            = Ok {[ "data-job-id" := "42" ]}) as Hd42 by reflexivity.
    rewrite Hd42 in Hd. injection Hd as <-.
    split; [exists "42"; split; [reflexivity | discriminate]|].
    split; [exists (leaf ["href"; "/jobs/42"] ""), {[ "href" := "/jobs/42" ]}, "/jobs/42";
            repeat split; discriminate|].
    repeat split; eexists; (split; [reflexivity | discriminate]).
  - apply not_true_is_false. intros Hv. apply Hinvalid in Hv.
    destruct Hv as (_ & _ & (e & [= <-] & Hne) & _). now apply Hne.
Defined.

(** ** The card loop: what reaches the store *)

(** X10. Whatever the cards are, and whether or not the loop ends with an
    exception, the store at the end is the store at the start after one
    [insert_job] for each record of a list in which every record passed
    [validate_job_info] and was extracted from one of the cards; there are
    no more such writes than cards. *)
Theorem crawl_cards_only_valid_writes (Store : Type)
    (insert_job : Store -> gmap string Py.value -> Store)
    (job_cards : list (Element * Tab)) (db : Store) :
  exists written : list (gmap string Py.value),
    snd (crawl_cards Store insert_job job_cards db) = foldl insert_job db written
    /\ Forall (fun job_info =>
                 JobData.validate_job_info job_info = true
                 /\ exists c, c ∈ job_cards /\ extracted c job_info) written
    /\ length written <= length job_cards.
Proof.
  revert db. induction job_cards as [|[job page] job_cards IH]; intros db.
  - exists []. repeat split; [constructor | reflexivity].
  - simpl. destruct (JobData.get_job_info page job) as [job_info|e] eqn:Hx.
    + destruct (JobData.validate_job_info job_info) eqn:Hv.
      * destruct (IH (insert_job db job_info)) as (written & Hdb & Hall & Hlen).
        exists (job_info :: written). split; [exact Hdb|]. split; [|simpl; lia].
        constructor.
        -- split; [exact Hv|]. exists (job, page). split; [constructor | exact Hx].
        -- eapply Forall_impl; [exact Hall|]. intros j (Hj & c & Hc & Hcx).
           split; [exact Hj|]. exists c. split; [now constructor | exact Hcx].
      * destruct (IH db) as (written & Hdb & Hall & Hlen).
        exists written. split; [exact Hdb|]. split; [|lia].
        eapply Forall_impl; [exact Hall|]. intros j (Hj & c & Hc & Hcx).
        split; [exact Hj|]. exists c. split; [now constructor | exact Hcx].
    + exists []. repeat split; [constructor | simpl; lia].
Qed.

(** ** [get_dashboard_stats]: relations between the figures *)

Lemma count_nonneg {A} (p : A -> bool) (t : list A) : (0 <= Db.count p t)%Z.
Proof. unfold Db.count. lia. Qed.

Lemma count_le_length {A} (p : A -> bool) (t : list A) :
  (Db.count p t <= Z.of_nat (length t))%Z.
Proof.
  unfold Db.count. apply inj_le. induction t as [|x t IH]; simpl; [lia|].
  destruct (p x); simpl; lia.
Qed.

Lemma count_mono {A} (p q : A -> bool) (t : list A) :
  (forall x, p x = true -> q x = true) ->
  (Db.count p t <= Db.count q t)%Z.
Proof.
  intros Hpq. unfold Db.count. apply inj_le.
  induction t as [|x t IH]; simpl; [lia|].
  destruct (p x) eqn:Hp.
  - rewrite (Hpq x Hp). simpl. lia.
  - destruct (q x); simpl; lia.
Qed.

(** Rows counted under two different statuses are different rows. *)
Lemma count_statuses_le {A} (st : A -> string) (t : list A) :
  (Db.count (fun a => String.eqb (st a) "submitted") t
   + Db.count (fun a => String.eqb (st a) "failed") t
   + Db.count (fun a => String.eqb (st a) "pending") t
   <= Z.of_nat (length t))%Z.
Proof.
  unfold Db.count. induction t as [|x t IH]; simpl; [lia|].
  destruct (String.eqb_spec (st x) "submitted") as [->|_]; simpl; [lia|].
  destruct (String.eqb_spec (st x) "failed") as [->|_]; simpl; [lia|].
  destruct (String.eqb (st x) "pending"); simpl; lia.
Qed.

(** X11. The figures of [get_dashboard_stats] are consistent: the
    submitted, failed and pending counts are disjoint parts of the total,
    the jobs not applied to are among the jobs, today's applications are
    among this week's, which are among all, and the success rate lies
    between 0 and 100. *)
Theorem get_dashboard_stats_consistent (current_date : Z) (db : Db.database) :
  exists stats,
    Db.get_dashboard_stats current_date db = Ok stats
    /\ (0 <= Db.apps_submitted stats)%Z
    /\ (0 <= Db.apps_failed stats)%Z
    /\ (0 <= Db.apps_pending stats)%Z
    /\ (Db.apps_submitted stats + Db.apps_failed stats + Db.apps_pending stats
        <= Db.total_applications stats)%Z
    /\ (0 <= Db.jobs_not_applied stats <= Db.total_jobs stats)%Z
    /\ (0 <= Db.today_apps stats <= Db.week_apps stats)%Z
    /\ (Db.week_apps stats <= Db.total_applications stats)%Z
    /\ (0 <= Db.success_rate stats)%Q
    /\ (Db.success_rate stats <= 100)%Q.
Proof.
  unfold Db.get_dashboard_stats. rewrite !count_all.
  set (total := Z.of_nat (length (Db.applications db))).
  assert (Hrate : exists r,
            (if (total >? 0)%Z
             then let* r := Db.truediv
                              (Db.count (Db.has_status "submitted") (Db.applications db))
                              total in Ok (r * 100)%Q
             else Ok 0%Q) = Ok r /\ (0 <= r)%Q /\ (r <= 100)%Q).
  { destruct (Z.gtb_spec total 0) as [Hpos|Hzero].
    - rewrite truediv_nonzero by lia. simpl. eexists. split; [reflexivity|].
      apply ratio_bounds; [|lia]. split; [apply count_nonneg | apply count_le_length].
    - exists 0%Q. repeat split; discriminate. }
  destruct Hrate as (r & -> & Hr0 & Hr100). simpl. eexists. split; [reflexivity|].
  simpl. repeat split; try apply count_nonneg; try assumption.
  - apply (count_statuses_le Db.status).
  - apply count_le_length.
  - apply count_mono. intros a. destruct (Db.applied_date a) as [d|]; [|discriminate].
    intros Hd%Z.eqb_eq. apply Z.leb_le. lia.
  - apply count_le_length.
Qed.

(** ** [get_success_rate_by_company]: order and range of the rows *)

Lemma sql_round2_bounds (x : Q) :
  (0 <= x)%Q -> (x <= 100)%Q ->
  (0 <= Db.sql_round2 x)%Q /\ (Db.sql_round2 x <= 100)%Q.
Proof.
  intros H0 H100. unfold Db.sql_round2.
  rewrite (proj2 (Qle_bool_iff 0 x) H0).
  assert (0 <= Qfloor (x * 100 + (1 # 2)))%Z as Hz0.
  { change 0%Z with (Qfloor 0). apply Qfloor_resp_le.
    apply Qle_trans with (x * 100)%Q.
    - apply Qmult_le_0_compat; [assumption | discriminate].
    - rewrite <- (Qplus_0_r (x * 100)) at 1. apply Qplus_le_r. discriminate. }
  assert (Qfloor (x * 100 + (1 # 2)) <= 10000)%Z as Hz1.
  { change 10000%Z with (Qfloor (100 * 100 + (1 # 2))). apply Qfloor_resp_le.
    apply Qplus_le_l. apply Qmult_le_compat_r; [assumption | discriminate]. }
  generalize dependent (Qfloor (x * 100 + (1 # 2))). intros z Hz0 Hz1.
  unfold Qle, Qdiv, Qmult, Qinv, inject_Z. simpl. split; lia.
Qed.

Lemma take_StronglySorted {A} (R : A -> A -> Prop) (n : nat) (l : list A) :
  StronglySorted R l -> StronglySorted R (take n l).
Proof.
  intros Hl. rewrite <- (firstn_skipn n l) in Hl.
  now apply StronglySorted_app in Hl as (_ & Htake & _).
Qed.

(** X12. The rows of the success-rate rollup come in order of
    non-increasing success rate, and in each row the number of successful
    applications lies between 0 and the total, the total is at least 3, and
    the success rate lies between 0 and 100. No assumption on the tables is
    needed. *)
Theorem get_success_rate_by_company_ordered (db : Db.database) :
  let rollup := Db.get_success_rate_by_company db in
  StronglySorted
    (fun x y => (Db.rate_success_rate y <= Db.rate_success_rate x)%Q) rollup
  /\ (forall g, g ∈ rollup ->
        (3 <= Db.rate_total_applications g)%Z
        /\ (0 <= Db.rate_successful g <= Db.rate_total_applications g)%Z
        /\ (0 <= Db.rate_success_rate g)%Q
        /\ (Db.rate_success_rate g <= 100)%Q).
Proof.
  unfold Db.get_success_rate_by_company. cbv zeta. split.
  - apply take_StronglySorted. apply (StronglySorted_merge_sort Db.by_rate_desc).
  - intros g Hg.
    assert (Hin : g ∈ merge_sort Db.by_rate_desc
              (filter (fun g => (3 <= Db.rate_total_applications g)%Z)
                 (Db.aggregate (Db.with_company (Db.left_join db))
                    <$> remove_dups (snd <$> Db.with_company (Db.left_join db))))).
    { rewrite <- (firstn_skipn 20 (merge_sort _ _)). apply elem_of_app. now left. }
    clear Hg. rewrite merge_sort_Permutation in Hin.
    apply list_elem_of_filter in Hin as [Hthree Hin].
    apply list_elem_of_fmap in Hin as (c & -> & _).
    unfold Db.aggregate in *. simpl in *.
    set (group := filter _ _) in *.
    assert (0 <= Db.count (fun r => Db.has_status "submitted" (fst r)) group
            <= Db.count (fun _ => true) group)%Z as Hs.
    { split; [apply count_nonneg|]. apply count_mono. reflexivity. }
    split; [exact Hthree|]. split; [exact Hs|].
    apply sql_round2_bounds; apply ratio_bounds; try exact Hs; lia.
Qed.

(** ** [retry_failed_application]: unknown ids, other rows, repetition *)

Lemma append_assoc (a b c : string) : (a +:+ b) +:+ c = a +:+ (b +:+ c).
Proof.
  induction a as [|x a IH]; [reflexivity|].
  change (String x ((a +:+ b) +:+ c) = String x (a +:+ (b +:+ c))).
  now f_equal.
Qed.

Lemma database_eq (db db' : Db.database) :
  Db.jobs db = Db.jobs db' -> Db.applications db = Db.applications db' -> db = db'.
Proof. destruct db, db'. simpl. now intros -> ->. Qed.

(** X13. Retrying with an id of the signed 64-bit range that no application
    has leaves the database as it was: the update matches no row. *)
Theorem retry_failed_application_unknown_id (db : Db.database) (id : Z) :
  (- 2 ^ 63 <= id < 2 ^ 63)%Z ->
  (forall a, a ∈ Db.applications db -> Db.application_id a <> id) ->
  Db.retry_failed_application id db = db.
Proof.
  intros _ Hid. apply database_eq; [reflexivity|]. simpl.
  induction (Db.applications db) as [|a apps IH]; [reflexivity|].
  rewrite fmap_cons. f_equal.
  - destruct (Z.eqb_spec (Db.application_id a) id) as [Heq|_]; [|reflexivity].
    exfalso. apply (Hid a); [constructor | exact Heq].
  - apply IH. intros a' Ha'. apply Hid. now constructor.
Qed.

Lemma retry_failed_application_unknown_id_99 :
  let db := {| Db.jobs := [];
               Db.applications :=
                 [Db.mkApplication 1 (Some "4021") "failed" None (Some "timeout")] |} in
  Db.retry_failed_application 99 db = db.
Proof.
  intros db. apply retry_failed_application_unknown_id; [lia|].
  intros a Ha. apply list_elem_of_singleton in Ha as ->. discriminate.
Defined.

(** X14. A retry leaves the jobs table, the number and the order of the
    applications and their ids as they were, and every application with
    another id unchanged. *)
Theorem retry_failed_application_frame (db : Db.database) (id : Z) :
  let db' := Db.retry_failed_application id db in
  Db.jobs db' = Db.jobs db
  /\ length (Db.applications db') = length (Db.applications db)
  /\ Db.application_id <$> Db.applications db'
     = Db.application_id <$> Db.applications db
  /\ (forall i a, Db.applications db !! i = Some a ->
                  Db.application_id a <> id ->
                  Db.applications db' !! i = Some a).
Proof.
  cbv zeta. split; [reflexivity|]. split; [apply length_fmap|]. split.
  - simpl. rewrite <- list_fmap_compose. apply list_fmap_ext.
    intros _ a _. simpl. destruct (Db.application_id a =? id)%Z; reflexivity.
  - intros i a Hi Hne. rewrite retry_failed_application_lookup, Hi. simpl.
    destruct (Z.eqb_spec (Db.application_id a) id); [contradiction | reflexivity].
Qed.

(** X15. A retry is not idempotent on the notes: retrying the same
    application twice leaves it ['pending'] and appends the audit note
    twice. *)
Theorem retry_failed_application_twice (db : Db.database) (i : nat)
    (a : Db.application_row) :
  Db.applications db !! i = Some a ->
  exists a',
    Db.applications
      (Db.retry_failed_application (Db.application_id a)
         (Db.retry_failed_application (Db.application_id a) db)) !! i = Some a'
    /\ Db.status a' = "pending"
    /\ Db.notes a'
       = Some (match Db.notes a with
               | Some n => n +:+ " | Retry requested | Retry requested"
               | None => "Retry requested | Retry requested"
               end).
Proof.
  intros Hi. exists (Db.retry_row (Db.retry_row a)).
  rewrite !retry_failed_application_lookup, Hi. simpl. rewrite !Z.eqb_refl.
  simpl. rewrite ?Z.eqb_refl. repeat split.
  unfold Db.retry_row. simpl. destruct (Db.notes a) as [n|]; simpl; [|reflexivity].
  now rewrite append_assoc.
Qed.

Lemma retry_failed_application_twice_timeout :
  exists a',
    Db.applications
      (Db.retry_failed_application 1
         (Db.retry_failed_application 1
            {| Db.jobs := [];
               Db.applications :=
                 [Db.mkApplication 1 (Some "4021") "failed" None (Some "timeout")] |}))
      !! 0 = Some a'
    /\ Db.notes a' = Some "timeout | Retry requested | Retry requested".
Proof.
  destruct (retry_failed_application_twice
              {| Db.jobs := [];
                 Db.applications :=
                   [Db.mkApplication 1 (Some "4021") "failed" None (Some "timeout")] |}
              0 _ eq_refl) as (a' & Ha' & _ & Hnotes).
  exists a'. split; [exact Ha' | exact Hnotes].
Defined.

(** X16. After the "Retry All Failed Applications" loop over a list of
    ids, every application whose id is in the list is ['pending'], every
    other application is unchanged, and rows keep their place and id. *)
Theorem retry_all_status (ids : list Z) (db : Db.database) (i : nat)
    (a : Db.application_row) :
  Db.applications db !! i = Some a ->
  exists a',
    Db.applications (Db.retry_all ids db) !! i = Some a'
    /\ Db.application_id a' = Db.application_id a
    /\ (Db.application_id a ∈ ids -> Db.status a' = "pending")
    /\ (Db.application_id a ∉ ids -> a' = a).
Proof.
  revert db a. induction ids as [|id ids IH]; intros db a Hi.
  - exists a. simpl. repeat split; [exact Hi | intros H; inversion H].
  - simpl.
    destruct (Z.eqb_spec (Db.application_id a) id) as [Heq|Hne].
    + destruct (IH (Db.retry_failed_application id db) (Db.retry_row a))
        as (a' & Ha' & Hid & Hin & Hout).
      { rewrite retry_failed_application_lookup, Hi. simpl.
        now rewrite (proj2 (Z.eqb_eq _ _) Heq). }
      exists a'. split; [exact Ha'|]. split; [exact Hid|]. split.
      * intros _. destruct (decide (Db.application_id a ∈ ids)) as [Hids|Hids].
        -- now apply Hin.
        -- rewrite (Hout Hids). reflexivity.
      * intros Hnot. exfalso. apply Hnot. rewrite Heq. constructor.
    + destruct (IH (Db.retry_failed_application id db) a)
        as (a' & Ha' & Hid & Hin & Hout).
      { rewrite retry_failed_application_lookup, Hi. simpl.
        now rewrite (proj2 (Z.eqb_neq _ _) Hne). }
      exists a'. split; [exact Ha'|]. split; [exact Hid|]. split.
      * intros [Heq|Hin']%elem_of_cons; [contradiction | now apply Hin].
      * intros Hnot. apply Hout. intros Hin'. apply Hnot. now constructor.
Qed.

Lemma retry_all_two_of_three :
  let db := {| Db.jobs := [];
               Db.applications :=
                 [Db.mkApplication 1 (Some "4021") "failed" None None;
                  Db.mkApplication 2 (Some "4022") "submitted" None None;
                  Db.mkApplication 3 (Some "4023") "failed" None None] |} in
  (exists a', Db.applications (Db.retry_all [1%Z; 3%Z] db) !! 2 = Some a'
              /\ Db.status a' = "pending")
  /\ Db.applications (Db.retry_all [1%Z; 3%Z] db) !! 1
     = Some (Db.mkApplication 2 (Some "4022") "submitted" None None).
Proof.
  intros db.
  destruct (retry_all_status [1%Z; 3%Z] db 2 _ eq_refl) as (a3 & H3 & _ & P3 & _).
  destruct (retry_all_status [1%Z; 3%Z] db 1 _ eq_refl) as (a2 & H2 & _ & _ & P2).
  split.
  - exists a3. split; [exact H3|]. apply P3. simpl. do 2 constructor.
  - rewrite H2. f_equal. apply P2. simpl.
    intros Hin. apply elem_of_cons in Hin as [Hin|Hin]; [discriminate|].
    apply list_elem_of_singleton in Hin. discriminate.
Defined.

(** ** [get_application_status_distribution] *)

(** The sum of a column. *)
Definition total (ns : list Z) : Z := foldr Z.add 0%Z ns.

Lemma count_cons {A} (p : A -> bool) (x : A) (t : list A) :
  Db.count p (x :: t) = ((if p x then 1 else 0) + Db.count p t)%Z.
Proof. unfold Db.count. simpl. destruct (p x); simpl; lia. Qed.

Lemma total_add {K} (f g : K -> Z) (ks : list K) :
  total ((fun k => (f k + g k)%Z) <$> ks) = (total (f <$> ks) + total (g <$> ks))%Z.
Proof.
  induction ks as [|k ks IH]; [reflexivity|].
  rewrite !fmap_cons. simpl. rewrite IH. lia.
Qed.

Lemma total_indicator {K} `{EqDecision K} (p : K -> bool) (s : K) (ks : list K) :
  (forall k, p k = true <-> s = k) ->
  NoDup ks ->
  total ((fun k => if p k then 1 else 0)%Z <$> ks) = (if decide (s ∈ ks) then 1 else 0)%Z.
Proof.
  intros Hp. induction 1 as [|k ks Hk Hnd IH]; [reflexivity|].
  rewrite fmap_cons. simpl. rewrite IH.
  destruct (p k) eqn:Hsk.
  - apply Hp in Hsk as ->.
    destruct (decide (k ∈ ks)) as [Hin|_]; [contradiction|].
    destruct (decide (k ∈ k :: ks)) as [_|Hout]; [reflexivity|].
    exfalso. apply Hout. constructor.
  - assert (s <> k) as Hne by (intros Heq; apply Hp in Heq; congruence).
    destruct (decide (s ∈ ks)) as [Hin|Hout];
      destruct (decide (s ∈ k :: ks)) as [Hin'|Hout']; try reflexivity.
    + exfalso. apply Hout'. now constructor.
    + apply elem_of_cons in Hin' as [Heq|Hin']; contradiction.
Qed.

(** Counting the rows key by key counts every row once, when the keys are
    distinct and every row has one of them. *)
Lemma total_count_by_key {A K} `{EqDecision K} (key : A -> K) (p : K -> A -> bool)
    (rows : list A) (ks : list K) :
  (forall k a, a ∈ rows -> p k a = true <-> key a = k) ->
  NoDup ks ->
  (forall a, a ∈ rows -> key a ∈ ks) ->
  total ((fun k => Db.count (p k) rows) <$> ks) = Z.of_nat (length rows).
Proof.
  intros Hp Hnd. induction rows as [|a rows IH]; intros Hks.
  - clear Hp Hnd Hks. induction ks as [|k ks IHk]; [reflexivity|].
    rewrite fmap_cons. simpl. rewrite IHk. reflexivity.
  - rewrite (list_fmap_ext _
      (fun k => ((if p k a then 1 else 0) + Db.count (p k) rows)%Z) ks)
      by (intros i k _; apply count_cons).
    rewrite total_add, IH;
      [|intros k a' Ha'; apply Hp; now constructor
       |intros a' Ha'; apply Hks; now constructor].
    rewrite (total_indicator (fun k => p k a) (key a));
      [|intros k; apply Hp; constructor|assumption].
    rewrite decide_True by (apply Hks; constructor).
    simpl length. lia.
Qed.

Lemma total_Permutation (l l' : list Z) : l ≡ₚ l' -> total l = total l'.
Proof.
  induction 1; simpl; lia.
Qed.

(** X17. The status distribution lists every status some application has,
    once, with the number of applications in that status (never zero), and
    the counts add up to the number of applications. *)
Theorem get_application_status_distribution_counts (db : Db.database) :
  let dist := Db.get_application_status_distribution db in
  NoDup (fst <$> dist)
  /\ (forall s n,
        (s, n) ∈ dist <->
        (exists a, a ∈ Db.applications db /\ Db.status a = s)
        /\ n = Db.count (Db.has_status s) (Db.applications db))
  /\ (forall s n, (s, n) ∈ dist -> (1 <= n)%Z)
  /\ total (snd <$> dist) = Z.of_nat (length (Db.applications db)).
Proof.
  unfold Db.get_application_status_distribution. cbv zeta.
  assert (Hmem : forall s n,
            (s, n) ∈ (fun s => (s, Db.count (Db.has_status s) (Db.applications db)))
                       <$> remove_dups (Db.status <$> Db.applications db) <->
            (exists a, a ∈ Db.applications db /\ Db.status a = s)
            /\ n = Db.count (Db.has_status s) (Db.applications db)).
  { intros s n. rewrite list_elem_of_fmap. split.
    - intros (s' & [= -> ->] & Hin). apply elem_of_remove_dups, list_elem_of_fmap in Hin.
      destruct Hin as (a & -> & Ha). split; [eauto | reflexivity].
    - intros ((a & Ha & <-) & ->). exists (Db.status a). split; [reflexivity|].
      apply elem_of_remove_dups, list_elem_of_fmap. eauto. }
  split; [|split; [exact Hmem|split]].
  - rewrite <- list_fmap_compose.
    rewrite (list_fmap_ext _ id) by reflexivity.
    rewrite list_fmap_id. apply NoDup_remove_dups.
  - intros s n ((a & Ha & <-) & ->)%Hmem.
    apply list_elem_of_split in Ha as (l1 & l2 & ->).
    unfold Db.count. rewrite List.filter_app. simpl.
    unfold Db.has_status at 2. rewrite String.eqb_refl.
    rewrite length_app. simpl. lia.
  - rewrite <- list_fmap_compose.
    apply (total_count_by_key Db.status Db.has_status);
      [intros k a _; apply String.eqb_eq | apply NoDup_remove_dups|].
    intros a Ha. apply elem_of_remove_dups, list_elem_of_fmap. eauto.
Qed.

(** ** [get_top_companies] *)

#[global] Instance by_job_count_desc_trans : Transitive Db.by_job_count_desc.
Proof. intros x y z. unfold Db.by_job_count_desc. lia. Qed.

#[global] Instance by_job_count_desc_total : Total Db.by_job_count_desc.
Proof. intros x y. unfold Db.by_job_count_desc. lia. Qed.






(** ** [get_unique_companies] *)

#[global] Instance string_le_total : Total Db.string_le.
Proof. intros a b. apply String.leb_total. Qed.

(** X19. [get_unique_companies] lists exactly the company names that some
    job has, each once, in ascending byte order. *)
Theorem get_unique_companies_sorted_distinct (db : Db.database) :
  let companies := Db.get_unique_companies db in
  Sorted (fun a b => String.leb a b = true) companies
  /\ NoDup companies
  /\ (forall c, c ∈ companies <-> exists j, j ∈ Db.jobs db /\ Db.company j = Some c).
Proof.
  unfold Db.get_unique_companies. cbv zeta. split; [|split].
  - apply (Sorted_merge_sort Db.string_le).
  - rewrite merge_sort_Permutation. apply NoDup_remove_dups.
  - intros c. rewrite merge_sort_Permutation, elem_of_remove_dups, list_elem_of_omap.
    reflexivity.
Qed.

(** ** [get_applications_over_time] *)

#[global] Instance by_date_trans : Transitive Db.by_date.
Proof. intros x y z. unfold Db.by_date. lia. Qed.

#[global] Instance by_date_total : Total Db.by_date.
Proof. intros x y. unfold Db.by_date. lia. Qed.

Lemma count_filter {A} (p q : A -> bool) (t : list A) :
  Db.count p (List.filter q t) = Db.count (fun a => q a && p a) t.
Proof.
  unfold Db.count. f_equal. induction t as [|x t IH]; [reflexivity|].
  simpl. destruct (q x); simpl; [destruct (p x); simpl; congruence | exact IH].
Qed.

Lemma on_day_in_window (current_date days d : Z) (a : Db.application_row) :
  (current_date - days <= d)%Z ->
  Db.in_window current_date days a && Db.on_day d a = Db.on_day d a.
Proof.
  intros Hd. unfold Db.in_window, Db.on_day.
  destruct (Db.applied_date a) as [d'|]; [|reflexivity].
  destruct (bool_decide_reflect (Some d' = Some d)) as [[= ->]|_].
  - rewrite andb_true_r. apply Z.leb_le. exact Hd.
  - apply andb_false_r.
Qed.

Lemma window_dates (current_date days : Z) (apps : list Db.application_row) (d : Z) :
  d ∈ remove_dups (omap Db.applied_date
                        (List.filter (Db.in_window current_date days) apps))
  <-> (exists a, a ∈ apps /\ Db.applied_date a = Some d)
      /\ (current_date - days <= d)%Z.
Proof.
  rewrite elem_of_remove_dups, list_elem_of_omap.
  setoid_rewrite list_elem_of_In. setoid_rewrite List.filter_In.
  unfold Db.in_window. split.
  - intros (a & [Ha Hw] & Hd). rewrite Hd in Hw. apply Z.leb_le in Hw. eauto.
  - intros ((a & Ha & Hd) & Hw). exists a. rewrite Hd.
    repeat split; [exact Ha | now apply Z.leb_le].
Qed.

(** X20. [get_applications_over_time] returns one row per day on which an
    application inside the window was made, in ascending order of date. A
    row reports the number of applications made that day (at least 1) and
    how many of them are submitted and failed, which together never exceed
    the day's count; the day counts add up to the number of applications
    inside the window. *)
Theorem get_applications_over_time_rows (current_date days : Z) (db : Db.database) :
  let timeline := Db.get_applications_over_time current_date days db in
  let apps := Db.applications db in
  StronglySorted (fun x y => (Db.day_date x <= Db.day_date y)%Z) timeline
  /\ NoDup (Db.day_date <$> timeline)
  /\ (forall d, d ∈ Db.day_date <$> timeline <->
                (exists a, a ∈ apps /\ Db.applied_date a = Some d)
                /\ (current_date - days <= d)%Z)
  /\ (forall g, g ∈ timeline ->
        Db.day_count_all g = Db.count (Db.on_day (Db.day_date g)) apps
        /\ (1 <= Db.day_count_all g)%Z
        /\ Db.day_submitted g
           = Db.count (fun a => Db.on_day (Db.day_date g) a
                                && Db.has_status "submitted" a) apps
        /\ Db.day_failed g
           = Db.count (fun a => Db.on_day (Db.day_date g) a
                                && Db.has_status "failed" a) apps
        /\ (0 <= Db.day_submitted g)%Z /\ (0 <= Db.day_failed g)%Z
        /\ (Db.day_submitted g + Db.day_failed g <= Db.day_count_all g)%Z)
  /\ total (Db.day_count_all <$> timeline)
     = Db.count (Db.in_window current_date days) apps.
Proof.
  unfold Db.get_applications_over_time. cbv zeta.
  set (apps := Db.applications db).
  set (rows := List.filter (Db.in_window current_date days) apps).
  set (dates := remove_dups (omap Db.applied_date rows)).
  assert (Hdates : Db.day_date <$> (Db.aggregate_day rows <$> dates) = dates).
  { rewrite <- list_fmap_compose. rewrite (list_fmap_ext _ id) by reflexivity.
    apply list_fmap_id. }
  split; [apply (StronglySorted_merge_sort Db.by_date)|].
  split; [rewrite merge_sort_Permutation, Hdates; apply NoDup_remove_dups|].
  split; [intros d; rewrite merge_sort_Permutation, Hdates; apply window_dates|].
  split.
  - intros g Hg. rewrite merge_sort_Permutation in Hg.
    apply list_elem_of_fmap in Hg as (d & -> & Hd).
    apply window_dates in Hd as ((a & Ha & Hda) & Hw).
    unfold Db.aggregate_day. simpl. unfold rows.
    rewrite !count_filter.
    assert (Hday : forall q : Db.application_row -> bool,
              Db.count (fun a => Db.in_window current_date days a && (Db.on_day d a && q a)) apps
              = Db.count (fun a => Db.on_day d a && q a) apps).
    { intros q. unfold Db.count. do 2 f_equal. apply List.filter_ext. intros x.
      rewrite andb_assoc, on_day_in_window by exact Hw. reflexivity. }
    rewrite !Hday.
    assert (Hall : Db.count (fun a => Db.on_day d a && true) apps
                   = Db.count (Db.on_day d) apps).
    { unfold Db.count. do 2 f_equal. apply List.filter_ext. intros x.
      apply andb_true_r. }
    rewrite Hall. split; [reflexivity|]. split.
    { apply list_elem_of_split in Ha as (l1 & l2 & ->).
      unfold Db.count. rewrite List.filter_app. simpl.
      unfold Db.on_day at 2. rewrite Hda, bool_decide_eq_true_2 by reflexivity.
      rewrite length_app. simpl. lia. }
    split; [reflexivity|]. split; [reflexivity|].
    split; [apply count_nonneg|]. split; [apply count_nonneg|].
    rewrite <- !count_filter.
    pose proof (count_statuses_le Db.status (List.filter (Db.on_day d) apps)) as Hle.
    pose proof (count_nonneg (fun a => String.eqb (Db.status a) "pending")
                  (List.filter (Db.on_day d) apps)) as Hp.
    fold (Db.has_status "submitted") (Db.has_status "failed") in Hle.
    rewrite <- (count_all (List.filter _ _)) in Hle.
    rewrite <- Hall, <- (count_filter (fun _ => true)). lia.
  - rewrite (total_Permutation _ (Db.day_count_all <$> (Db.aggregate_day rows <$> dates)))
      by (apply fmap_Permutation, merge_sort_Permutation).
    rewrite <- list_fmap_compose.
    rewrite (list_fmap_ext _ (fun d => Db.count (Db.on_day d) rows) dates).
    2:{ intros _ d _. simpl. rewrite count_filter. unfold Db.count. do 2 f_equal.
        apply List.filter_ext. intros x. apply andb_true_r. }
    rewrite (total_count_by_key (fun a => default 0%Z (Db.applied_date a)) Db.on_day).
    + unfold rows, Db.count. reflexivity.
    + intros d a Ha. unfold rows in Ha.
      apply list_elem_of_In, List.filter_In in Ha as [_ Hw].
      unfold Db.in_window in Hw. unfold Db.on_day.
      destruct (Db.applied_date a) as [d'|]; [|discriminate]. simpl.
      rewrite bool_decide_eq_true. split; congruence.
    + apply NoDup_remove_dups.
    + intros a Ha. apply elem_of_remove_dups, list_elem_of_omap.
      exists a. split; [exact Ha|]. unfold rows in Ha.
      apply list_elem_of_In, List.filter_In in Ha as [_ Hw].
      unfold Db.in_window in Hw.
      destruct (Db.applied_date a); [reflexivity | discriminate].
Qed.

(** ** [get_all_applications]: placeholders and parameters *)




Lemma placeholders_length {A B} (xs : list A) (ys : list B) :
  length xs = length ys -> Db.placeholders xs = Db.placeholders ys.
Proof.
  unfold Db.placeholders. intros Hlen. f_equal.
  revert ys Hlen. induction xs as [|x xs IH]; intros [|y ys] Hlen;
    try discriminate; [reflexivity|].
  rewrite !fmap_cons. f_equal. apply IH. now injection Hlen.
Qed.


(** X22. The text of the query depends on the filters only through the
    number of statuses, the number of companies, and whether a date range
    and a search term are given: no filter value, limit or offset is ever
    part of the SQL text. *)
Theorem build_applications_query_text
    (status_filter company_filter status_filter' company_filter' : option (list string))
    (date_range date_range' : option (list Db.sql_param))
    (search_term search_term' : option string)
    (limit offset limit' offset' : Z) :
  length (Db.list_arg status_filter) = length (Db.list_arg status_filter') ->
  length (Db.list_arg company_filter) = length (Db.list_arg company_filter') ->
  (Db.list_arg date_range = [] <-> Db.list_arg date_range' = []) ->
  (default "" search_term = "" <-> default "" search_term' = "") ->
  fst (Db.build_applications_query status_filter company_filter
         date_range search_term limit offset)
  = fst (Db.build_applications_query status_filter' company_filter'
           date_range' search_term' limit' offset').
Proof.
  intros Hs Hc Hd Ht. unfold Db.build_applications_query. cbv zeta.
  assert (Hq1 :
    fst (match Db.list_arg status_filter with
         | [] => (Db.select_applications, [])
         | _ :: _ =>
             (Db.select_applications +:+ " AND a.status IN ("
                +:+ Db.placeholders (Db.list_arg status_filter) +:+ ")",
              ([] ++ (Db.PStr <$> Db.list_arg status_filter))%list)
         end)
    = fst (match Db.list_arg status_filter' with
           | [] => (Db.select_applications, [])
           | _ :: _ =>
               (Db.select_applications +:+ " AND a.status IN ("
                  +:+ Db.placeholders (Db.list_arg status_filter') +:+ ")",
                ([] ++ (Db.PStr <$> Db.list_arg status_filter'))%list)
           end)).
  { rewrite (placeholders_length _ _ Hs).
    destruct (Db.list_arg status_filter), (Db.list_arg status_filter');
      try discriminate Hs; reflexivity. }
  destruct (match Db.list_arg status_filter with [] => _ | _ :: _ => _ end) as [q1 p1].
  destruct (match Db.list_arg status_filter' with [] => _ | _ :: _ => _ end) as [q1' p1'].
  simpl in Hq1. subst q1'.
  rewrite (placeholders_length _ _ Hc).
  destruct (Db.list_arg company_filter) as [|c cs],
           (Db.list_arg company_filter') as [|c' cs'];
    try discriminate Hc;
    destruct (Db.list_arg date_range) as [|d ds],
             (Db.list_arg date_range') as [|d' ds'];
    try (exfalso; destruct Hd as [Hd1 Hd2]; (discriminate (Hd1 eq_refl) || discriminate (Hd2 eq_refl)));
    destruct search_term as [[|x r]|], search_term' as [[|x' r']|];
    try (exfalso; destruct Ht as [Ht1 Ht2]; simpl in *;
         (discriminate (Ht1 eq_refl) || discriminate (Ht2 eq_refl)));
    reflexivity.
Qed.

Lemma build_applications_query_text_two_searches :
  fst (Db.build_applications_query (Some ["failed"]) None None (Some "acme") 50 0)
  = fst (Db.build_applications_query (Some ["submitted"]) (Some []) (Some [])
           (Some "x' OR 1=1 --") 25 100).
Proof.
  apply build_applications_query_text; simpl; try reflexivity;
    split; intros H; try reflexivity; discriminate H.
Defined.
